(** * uv-create: project scaffolding from [.toml] templates

    A shallow embedding of [src/uv-create.py] (class [UVCreateTemplate]) and
    the properties its specification states about template rendering,
    project creation and template reset.

    Conventions of the embedding.
    - Python [str] values are [string]s whose characters are read as the code
      points 0..255; every literal of the source used here is ASCII.  The
      messages the tool prints are kept as structured [message] values, one
      constructor per [print] call of the source.
    - The file system is a finite map from absolute paths (lists of
      components) to nodes; there are no symbolic links and a [..]
      component is kept as a name, the way [pathlib] keeps it.  A file holds
      the characters that are on disk.  Writing in text mode stores the
      text as it is (the line separator of the platform is the line feed);
      reading in text mode turns every carriage return, with the line feed
      that may follow it, into one line feed; [shutil.copy] copies the
      stored characters.
    - Python exceptions are values of [exn]; a computation runs in the
      monad [M], which threads the [world] and either returns or raises.
    - What the Python runtime decides outside the source (the object
      protocol behind accessors, conversions and non-empty format specs of
      a replacement field, and the effect of the spawned [uv] process) is
      the [Runtime] interface, over which every definition is generic. *)

From Stdlib Require Import String Ascii ZArith NArith Lia.
From stdpp Require Import base option list strings gmap fin_maps.

Local Open Scope string_scope.

(** ** Exceptions and results *)

Inductive exn : Type :=
| KeyError (key : string)
| IndexError
| ValueError (msg : string)
| TypeError
| AttributeError
| FileNotFoundError
| FileExistsError
| NotADirectoryError
| IsADirectoryError
| SameFileError
| CalledProcessError (returncode : Z)
| OtherException (what : string).

Inductive result (A : Type) : Type :=
| Ok (a : A)
| Raise (e : exn).
Arguments Ok {A} a.
Arguments Raise {A} e.

(** ** Text helpers: [str.lower], [str.replace], [str.join] *)

(** [str.lower] on one code point below 256: the upper-case letters are
    A-Z, and U+00C0..U+00DE without the multiplication sign U+00D7. *)
Definition lower_char (c : ascii) : ascii :=
  let n := N_of_ascii c in
  if ((65 <=? n) && (n <=? 90))%N then ascii_of_N (n + 32)
  else if ((192 <=? n) && (n <=? 222) && negb (n =? 215))%N then ascii_of_N (n + 32)
  else c.

Fixpoint lower (s : string) : string :=
  match s with
  | "" => ""
  | String c s' => String (lower_char c) (lower s')
  end.

(** [s.replace(old, new)] for one-character [old] and [new]. *)
Fixpoint replace_char (old new : ascii) (s : string) : string :=
  match s with
  | "" => ""
  | String c s' => String (if Ascii.eqb c old then new else c) (replace_char old new s')
  end.

(** [sep.join(l)] *)
Fixpoint join (sep : string) (l : list string) : string :=
  match l with
  | [] => ""
  | [x] => x
  | x :: l' => x +:+ sep +:+ join sep l'
  end.

(** What reading in text mode does to line ends ([newline=None]): a
    carriage return followed by a line feed, and a carriage return alone,
    each become one line feed. *)
Fixpoint universal_newlines (s : string) : string :=
  match s with
  | "" => ""
  | String c s' =>
      if Ascii.eqb c "013" then
        match s' with
        | String c' s'' =>
            if Ascii.eqb c' "010" then String "010" (universal_newlines s'')
            else String "010" (universal_newlines s')
        | "" => String "010" ""
        end
      else String c (universal_newlines s')
  end.

(** Python truthiness of an optional string argument: [None] and the empty
    string are both false. *)
Definition truthy (o : option string) : bool :=
  match o with
  | Some (String _ _) => true
  | _ => false
  end.

(** ** The runtime interface *)

Inductive node : Type :=
| File (content : string)
| Dir.

Inductive proc_result : Type :=
| Exited (returncode : Z)
| SpawnFailed (e : exn).

Class Runtime : Type := {
  (** [get_field_object] past the first name, then [do_conversion]: given
      the looked-up value, the accessor text after the first name and the
      conversion character, either raises or yields the object, seen as its
      [__format__]. Consulted only when there is an accessor or a conversion
      other than [s]. *)
  field_object : string -> string -> option ascii -> result (string -> result string);
  (** [format(value, spec)] of a [str] value and a non-empty format spec. *)
  str_format : string -> string -> result string;
  (** The operating system running an argument vector to completion: the
      file system it leaves and how the process ended. *)
  run_process : list string -> gmap (list string) node -> gmap (list string) node * proc_result
}.

(** ** [str.format] with keyword arguments only

    The scanner follows CPython's [MarkupIterator_next] and [parse_field]
    as a transition function over one character; [render_markup] follows
    [output_markup]. *)

Inductive scan_state : Type :=
| InLiteral
| AfterOpen
| AfterClose
| InName (name : string) (bracket : bool)
| AfterBang (name : string)
| AfterConversion (name : string) (conv : ascii)
| InSpec (name : string) (conv : option ascii) (spec : string) (depth : nat) (nested : bool).

Record markup : Type := Markup {
  m_name : string;
  m_conv : option ascii;
  m_spec : string;
  m_nested : bool
}.

Inductive action : Type :=
| Goto (st : scan_state)
| Emit (c : ascii)
| Field (m : markup)
| Reject (e : exn).

Definition snoc (s : string) (c : ascii) : string := s +:+ String c "".

Definition step_name (name : string) (bracket : bool) (c : ascii) : action :=
  if bracket then Goto (InName (snoc name c) (negb (Ascii.eqb c "]")))
  else if Ascii.eqb c "{" then Reject (ValueError "unexpected '{' in field name")
  else if Ascii.eqb c "[" then Goto (InName (snoc name c) true)
  else if Ascii.eqb c "}" then Field (Markup name None "" false)
  else if Ascii.eqb c ":" then Goto (InSpec name None "" 1 false)
  else if Ascii.eqb c "!" then Goto (AfterBang name)
  else Goto (InName (snoc name c) false).

Definition step (st : scan_state) (c : ascii) : action :=
  match st with
  | InLiteral =>
      if Ascii.eqb c "{" then Goto AfterOpen
      else if Ascii.eqb c "}" then Goto AfterClose
      else Emit c
  | AfterOpen =>
      if Ascii.eqb c "{" then Emit "{" else step_name "" false c
  | AfterClose =>
      if Ascii.eqb c "}" then Emit "}"
      else Reject (ValueError "Single '}' encountered in format string")
  | InName name bracket => step_name name bracket c
  | AfterBang name => Goto (AfterConversion name c)
  | AfterConversion name conv =>
      if Ascii.eqb c "}" then Field (Markup name (Some conv) "" false)
      else if Ascii.eqb c ":" then Goto (InSpec name (Some conv) "" 1 false)
      else Reject (ValueError "expected ':' after conversion specifier")
  | InSpec name conv spec depth nested =>
      if Ascii.eqb c "{" then Goto (InSpec name conv (snoc spec c) (S depth) true)
      else if Ascii.eqb c "}" then
        match depth with
        | 1 => Field (Markup name conv spec nested)
        | _ => Goto (InSpec name conv (snoc spec c) (pred depth) nested)
        end
      else Goto (InSpec name conv (snoc spec c) depth nested)
  end.

(** What the end of the format string means in each state. *)
Definition at_end (st : scan_state) : result string :=
  match st with
  | InLiteral => Ok ""
  | AfterOpen => Raise (ValueError "Single '{' encountered in format string")
  | AfterClose => Raise (ValueError "Single '}' encountered in format string")
  | InName _ _ => Raise (ValueError "expected '}' before end of string")
  | AfterBang _ => Raise (ValueError "end of string while looking for conversion specifier")
  | AfterConversion _ _ => Raise (ValueError "unmatched '{' in format spec")
  | InSpec _ _ _ _ _ => Raise (ValueError "unmatched '{' in format spec")
  end.

(** [get_integer]: the first name read as a decimal index. *)
Inductive field_index : Type :=
| NotAnIndex
| Index (i : N)
| TooManyDigits.

Definition PY_SSIZE_T_MAX : N := 9223372036854775807.

Definition digit_value (c : ascii) : option N :=
  let n := N_of_ascii c in
  if ((48 <=? n) && (n <=? 57))%N then Some (n - 48)%N else None.

Fixpoint get_integer_from (acc : N) (s : string) : field_index :=
  match s with
  | "" => Index acc
  | String c s' =>
      match digit_value c with
      | None => NotAnIndex
      | Some d =>
          if ((PY_SSIZE_T_MAX - d) / 10 <? acc)%N then TooManyDigits
          else get_integer_from (acc * 10 + d)%N s'
      end
  end.

Definition get_integer (s : string) : field_index :=
  match s with
  | "" => NotAnIndex
  | _ => get_integer_from 0%N s
  end.

(** [field_name_split]: the first name runs up to the first [.] or [[]. *)
Fixpoint field_name_split (s : string) : string * string :=
  match s with
  | "" => ("", "")
  | String c s' =>
      if Ascii.eqb c "." || Ascii.eqb c "[" then ("", s)
      else let '(first, rest) := field_name_split s' in (String c first, rest)
  end.

Fixpoint dict_get (kwargs : list (string * string)) (key : string) : option string :=
  match kwargs with
  | [] => None
  | (k, v) :: kwargs' => if String.eqb k key then Some v else dict_get kwargs' key
  end.

(** The first-name lookup of [get_field_object]. The positional tuple is
    empty, so an empty or numeric first name raises [IndexError]. *)
Definition lookup_first (kwargs : list (string * string)) (first : string) : result string :=
  match get_integer first with
  | TooManyDigits => Raise (ValueError "Too many decimal digits in format string")
  | Index _ => Raise IndexError
  | NotAnIndex =>
      match first with
      | "" => Raise IndexError
      | _ =>
          match dict_get kwargs first with
          | Some v => Ok v
          | None => Raise (KeyError first)
          end
      end
  end.

Definition is_plain (rest : string) (conv : option ascii) : bool :=
  match rest, conv with
  | "", None => true
  | "", Some c => Ascii.eqb c "s"
  | _, _ => false
  end.

Definition prepend {A} (f : A -> A) (r : result A) : result A :=
  match r with
  | Ok a => Ok (f a)
  | Raise e => Raise e
  end.

Section format.
Context `{Runtime}.
Variable kwargs : list (string * string).

(** [output_markup]: look the field up, apply accessors and conversion,
    expand a nested format spec, render. *)
Definition render_markup (expand : string -> result string) (m : markup) : result string :=
  let '(first, rest) := field_name_split (m_name m) in
  match lookup_first kwargs first with
  | Raise e => Raise e
  | Ok v =>
      let obj : result (string -> result string) :=
        if is_plain rest (m_conv m)
        then Ok (fun spec => match spec with "" => Ok v | _ => str_format v spec end)
        else field_object v rest (m_conv m) in
      match obj with
      | Raise e => Raise e
      | Ok fmt =>
          match (if m_nested m then expand (m_spec m) else Ok (m_spec m)) with
          | Raise e => Raise e
          | Ok spec => fmt spec
          end
      end
  end.

(** [do_markup]: literal text is copied, a completed field is rendered
    before anything after it is looked at. *)
Fixpoint scan (expand : string -> result string) (st : scan_state) (s : string) : result string :=
  match s with
  | "" => at_end st
  | String c s' =>
      match step st c with
      | Goto st' => scan expand st' s'
      | Emit c' => prepend (String c') (scan expand InLiteral s')
      | Reject e => Raise e
      | Field m =>
          match render_markup expand m with
          | Raise e => Raise e
          | Ok v => prepend (String.append v) (scan expand InLiteral s')
          end
      end
  end.

(** [build_string] with its recursion budget. *)
Fixpoint build_string (recursion_depth : nat) (s : string) : result string :=
  match recursion_depth with
  | O => Raise (ValueError "Max string recursion exceeded")
  | S d => scan (build_string d) InLiteral s
  end.

(** [s.format] applied to keyword arguments. *)
Definition format (s : string) : result string := build_string 2 s.
End format.

(** ** Paths ([pathlib.PurePosixPath]) *)

Record Path : Type := MkPath {
  anchor : string;          (* the root: empty, one slash, or exactly two *)
  parts : list string       (* the components after the root *)
}.

Fixpoint split_slash (cur : string) (s : string) : list string :=
  match s with
  | "" => [cur]
  | String c s' =>
      if Ascii.eqb c "/" then cur :: split_slash "" s'
      else split_slash (snoc cur c) s'
  end.

Definition is_component (c : string) : bool :=
  negb (String.eqb c "" || String.eqb c ".").

Definition parse_anchor (s : string) : string :=
  match s with
  | String "/" (String "/" (String "/" _)) => "/"
  | String "/" (String "/" _) => "//"
  | String "/" _ => "/"
  | _ => ""
  end.

(** [Path(s)] *)
Definition Path_of (s : string) : Path :=
  MkPath (parse_anchor s) (List.filter is_component (split_slash "" s)).

(** [p / s]: an anchored right operand replaces the left one. *)
Definition joinpath (p : Path) (s : string) : Path :=
  let q := Path_of s in
  match anchor q with
  | "" => MkPath (anchor p) (parts p ++ parts q)
  | _ => q
  end.

(** [str(p)] *)
Definition path_str (p : Path) : string :=
  match anchor p, parts p with
  | "", [] => "."
  | a, l => a +:+ join "/" l
  end.

(** [p.parent] *)
Definition parent (p : Path) : Path := MkPath (anchor p) (removelast (parts p)).

(** [os.path.basename(p)] *)
Definition basename (p : Path) : string := List.last (parts p) "".

Fixpoint rfind_dot (s : string) (i : nat) : option nat :=
  match s with
  | "" => None
  | String c s' =>
      match rfind_dot s' (S i) with
      | Some j => Some j
      | None => if Ascii.eqb c "." then Some i else None
      end
  end.

(** The [stem] of a file name: the name without its last suffix; a leading
    or trailing dot starts no suffix. *)
Definition stem (name : string) : string :=
  match rfind_dot name 0 with
  | Some i =>
      if (0 <? i)%nat && (i <? String.length name - 1)%nat
      then String.substring 0 i name else name
  | None => name
  end.

Definition ends_with (suffix s : string) : bool :=
  let n := String.length suffix in
  let m := String.length s in
  (n <=? m)%nat && String.eqb (String.substring (m - n) n s) suffix.

(** ** The file system *)

Definition lookup_node (fs : gmap (list string) node) (k : list string) : option node :=
  match k with
  | [] => Some Dir
  | _ => fs !! k
  end.

(** The non-empty prefixes of a key, shortest first. *)
Fixpoint prefixes (k : list string) : list (list string) :=
  match k with
  | [] => []
  | x :: k' => [x] :: List.map (cons x) (prefixes k')
  end.

(** Some proper ancestor of [k] is a regular file. *)
Definition blocked (fs : gmap (list string) node) (k : list string) : bool :=
  existsb (fun q => match fs !! q with Some (File _) => true | _ => false end)
          (removelast (prefixes k)).

Definition missing_error (fs : gmap (list string) node) (k : list string) : exn :=
  if blocked fs k then NotADirectoryError else FileNotFoundError.

(** What [shutil.rmtree] leaves: every entry that is not at or below [k]. *)
Definition remove_tree (k : list string) (fs : gmap (list string) node) : gmap (list string) node :=
  filter (fun kv : list string * node => ¬ k `prefix_of` kv.1) fs.

Definition make_dirs (k : list string) (fs : gmap (list string) node) : gmap (list string) node :=
  foldl (fun acc q => match acc !! q with None => <[q := Dir]> acc | Some _ => acc end)
        fs (prefixes k).

(** The children of directory [k] with their names, in the order the
    directory is listed. *)
Definition listdir (fs : gmap (list string) node) (k : list string) : list string :=
  omap (fun kv : list string * node =>
          match list.last kv.1 with
          | Some name => if bool_decide (kv.1 = (k ++ [name])%list) then Some name else None
          | None => None
          end) (map_to_list fs).

(** ** The world, messages and the monad *)

(** One constructor per [print] call of the source, with the values the
    message interpolates. *)
Inductive message : Type :=
| MsgDirectoryExists (project_path : string)     (* Error: Directory '...' already exists! *)
| MsgTemplateNotFound (template : string)        (* Error: Template '...' not found! *)
| MsgAvailableTemplates (names : string)         (* Available templates: ... *)
| MsgCreated (project_name template : string)    (* Successfully created project '...' using template '...' *)
| MsgLocation (project_path : string)            (* Project location: ... *)
| MsgNextSteps                                   (* Next steps: *)
| MsgCd (project_name : string)                  (* cd ... *)
| MsgUvSync                                      (* uv sync *)
| MsgUvInitError (e : exn)                       (* Error running uv init: ... *)
| MsgCreateError (e : exn)                       (* Error creating project: ... *)
| MsgCopiedPreCommit                             (* Copied .pre-commit-config.yaml to project directory *)
| MsgPreCommitMissing                            (* Warning: .pre-commit-config.yaml not found, creating default config *)
| MsgAdditionalFiles                             (* Created additional files based on template type *)
| MsgCustomTemplate (template_name : string)     (* Created custom template: ... *)
| MsgShowMissing (template_name : string)        (* Error: Template '...' not found! *)
| MsgShowHeader (template_name : string)         (* Template: ... *)
| MsgShowRule                                    (* fifty equals signs *)
| MsgShowContent (content : string)              (* the template text *)
| MsgResetAll                                    (* Reset all templates to default content *)
| MsgResetUnknown (template_name : string)       (* Error: Template '...' does not exist! *)
| MsgReset (template_name : string).             (* Reset template '...' to default content *)

Record world : Type := World {
  files : gmap (list string) node;
  stdout : list message;
  spawned : list (list string)
}.

Definition M (A : Type) : Type := world -> world * result A.

Definition ret {A} (a : A) : M A := fun w => (w, Ok a).
Definition raise {A} (e : exn) : M A := fun w => (w, Raise e).
Definition bind {A B} (m : M A) (k : A -> M B) : M B :=
  fun w => match m w with
           | (w', Ok a) => k a w'
           | (w', Raise e) => (w', Raise e)
           end.
Definition try_except {A} (body : M A) (handler : exn -> M A) : M A :=
  fun w => match body w with
           | (w', Ok a) => (w', Ok a)
           | (w', Raise e) => handler e w'
           end.

Notation "'do' x <- m ; k" := (bind m (fun x => k))
  (at level 10, x name, m at level 100, k at level 200, only parsing).
Notation "'exec' m ; k" := (bind m (fun _ => k))
  (at level 10, m at level 100, k at level 200, only parsing).

Fixpoint for_each {A} (l : list A) (body : A -> M unit) : M unit :=
  match l with
  | [] => ret tt
  | x :: l' => exec body x; for_each l' body
  end.

Definition print (m : message) : M unit :=
  fun w => (World (files w) (stdout w ++ [m]) (spawned w), Ok tt).

Definition set_files (fs : gmap (list string) node) (w : world) : world :=
  World fs (stdout w) (spawned w).

(** The environment of one invocation. *)
Record environ : Type := Environ {
  USER : option string;        (* the environment variable, when set *)
  cwd : list string;           (* [Path.cwd()] *)
  home : Path;                 (* [Path.home()] *)
  script_file : string         (* [__file__] *)
}.

Record UVCreateTemplate : Type := Self { template_dir : Path }.

(** ** File-system operations as the source calls them *)

Section operations.
Context `{Runtime}.
Variable env : environ.

(** Where a path points: a relative path is taken from the working
    directory. *)
Definition locate (p : Path) : list string :=
  match anchor p with
  | "" => (cwd env ++ parts p)%list
  | _ => parts p
  end.

(** [p.exists()] *)
Definition path_exists (p : Path) : M bool :=
  fun w => (w, Ok (bool_decide (is_Some (lookup_node (files w) (locate p))))).

(** [open(p, "w")] followed by [f.write(content)] *)
Definition write_text (p : Path) (content : string) : M unit :=
  fun w =>
    let k := locate p in
    match lookup_node (files w) k with
    | Some Dir => (w, Raise IsADirectoryError)
    | _ =>
        match lookup_node (files w) (removelast k) with
        | Some Dir => (set_files (<[k := File content]> (files w)) w, Ok tt)
        | Some (File _) => (w, Raise NotADirectoryError)
        | None => (w, Raise (missing_error (files w) k))
        end
    end.

(** [open(p, "r")] followed by [f.read()]: the stored characters with
    the line ends of text mode. *)
Definition read_text (p : Path) : M string :=
  fun w =>
    let k := locate p in
    match lookup_node (files w) k with
    | Some (File content) => (w, Ok (universal_newlines content))
    | Some Dir => (w, Raise IsADirectoryError)
    | None => (w, Raise (missing_error (files w) k))
    end.

(** [open(p, "rb")] followed by [f.read()], the read inside
    [shutil.copy]: the stored characters as they are. *)
Definition read_bytes (p : Path) : M string :=
  fun w =>
    let k := locate p in
    match lookup_node (files w) k with
    | Some (File content) => (w, Ok content)
    | Some Dir => (w, Raise IsADirectoryError)
    | None => (w, Raise (missing_error (files w) k))
    end.

(** [p.mkdir(parents=True)] *)
Definition mkdir_parents (p : Path) : M unit :=
  fun w =>
    let k := locate p in
    match lookup_node (files w) k with
    | Some _ => (w, Raise FileExistsError)
    | None =>
        if blocked (files w) k then (w, Raise NotADirectoryError)
        else (set_files (make_dirs k (files w)) w, Ok tt)
    end.

(** [p.mkdir(exist_ok=True)] *)
Definition mkdir_exist_ok (p : Path) : M unit :=
  fun w =>
    let k := locate p in
    match lookup_node (files w) k with
    | Some Dir => (w, Ok tt)
    | Some (File _) => (w, Raise FileExistsError)
    | None =>
        match lookup_node (files w) (removelast k) with
        | Some Dir => (set_files (<[k := Dir]> (files w)) w, Ok tt)
        | Some (File _) => (w, Raise NotADirectoryError)
        | None => (w, Raise (missing_error (files w) k))
        end
    end.

(** [shutil.rmtree(p)]. Removing the root directory itself empties it and
    then fails. *)
Definition rmtree (p : Path) : M unit :=
  fun w =>
    let k := locate p in
    match lookup_node (files w) k with
    | Some Dir =>
        match k with
        | [] => (set_files (remove_tree k (files w)) w, Raise (OtherException "rmdir"))
        | _ => (set_files (remove_tree k (files w)) w, Ok tt)
        end
    | Some (File _) => (w, Raise NotADirectoryError)
    | None => (w, Raise (missing_error (files w) k))
    end.

(** [shutil.copy(src, dst)]: a directory as destination receives the file
    under the source's base name. *)
Definition shutil_copy (src dst : Path) : M unit :=
  fun w =>
    let d := match lookup_node (files w) (locate dst) with
             | Some Dir => joinpath dst (basename src)
             | _ => dst
             end in
    if bool_decide (locate src = locate d)
       && bool_decide (is_Some (lookup_node (files w) (locate src)))
    then (w, Raise SameFileError)
    else (do content <- read_bytes src; write_text d content) w.

(** [p.glob("*.toml")], as the names found *)
Definition glob_toml (p : Path) : M (list string) :=
  fun w => (w, Ok (List.filter (ends_with ".toml") (listdir (files w) (locate p)))).

(** [subprocess.run(argv, check=True, capture_output=True)] *)
Definition subprocess_run_check (argv : list string) : M unit :=
  fun w =>
    let '(fs, r) := run_process argv (files w) in
    let w' := World fs (stdout w) (spawned w ++ [argv]) in
    match r with
    | Exited 0 => (w', Ok tt)
    | Exited code => (w', Raise (CalledProcessError code))
    | SpawnFailed e => (w', Raise e)
    end.

(** [os.getenv("USER", default)] *)
Definition getenv_USER (default : string) : string :=
  match USER env with
  | Some v => v
  | None => default
  end.
End operations.

(** ** The literal texts of the source

    Each text is given line by line; [Q] is the double-quote character and
    [lines] ends every line with a newline. *)

Definition Q : string := String "034" "".
Definition nl : string := String "010" "".

Fixpoint lines (l : list string) : string :=
  match l with
  | [] => ""
  | x :: l' => x +:+ nl +:+ lines l'
  end.

(** [get_basic_template]: the canonical body of the built-in template. *)
Definition get_basic_template : string :=
  lines [
    "";
    "";
    "[project]";
    "name = " +:+ Q +:+ "{project_name}" +:+ Q;
    "version = " +:+ Q +:+ "0.1.0" +:+ Q;
    "description = " +:+ Q +:+ "A basic Python project" +:+ Q;
    "authors = [";
    "    {{name = " +:+ Q +:+ "{author_name}" +:+ Q +:+ ", email = " +:+ Q +:+ "{author_email}" +:+ Q +:+ "}}";
    "]";
    "dependencies = []";
    "readme = " +:+ Q +:+ "README.md" +:+ Q;
    "requires-python = " +:+ Q +:+ ">=3.11" +:+ Q;
    "";
    "[dependency-groups]";
    "dev = [";
    "    " +:+ Q +:+ "pytest>=7.0" +:+ Q +:+ ",";
    "    " +:+ Q +:+ "black>=22.0" +:+ Q +:+ ",";
    "    " +:+ Q +:+ "ruff>=0.1.0" +:+ Q +:+ ",";
    "    " +:+ Q +:+ "pre-commit>=2.0.0" +:+ Q +:+ ",";
    "    " +:+ Q +:+ "mypy>=0.910" +:+ Q;
    "]";
    "[[tool.uv.index]]";
    "name = " +:+ Q +:+ "pytorch-cu118" +:+ Q;
    "url = " +:+ Q +:+ "https://download.pytorch.org/whl/cu118" +:+ Q;
    "explicit = true";
    "";
    "### CODE FORMATTING";
    "";
    "[tool.black]";
    "# https://black.readthedocs.io/en/stable/the_black_code_style/current_style.html#line-length";
    "line-length = 100";
    "# Assume Python 3.11 (see `ruff`)";
    "target-version = ['py311']";
    "extend-exclude = '''";
    "(";
    "  ^/notebooks";
    "  | ^/.pytest_cache";
    "  | ^/.ruff_cache";
    ")";
    "'''";
    "";
    "### CODE STYLE ENFORCEMENT";
    "";
    "[tool.ruff]";
    "fix = true";
    "lint.select = [";
    "    " +:+ Q +:+ "A" +:+ Q +:+ ", " +:+ Q +:+ "B" +:+ Q +:+ ", " +:+ Q +:+ "C" +:+ Q +:+ ", " +:+ Q +:+ "D" +:+ Q +:+ ", " +:+ Q +:+ "E" +:+ Q +:+ ", " +:+ Q +:+ "F" +:+ Q +:+ ", " +:+ Q +:+ "G" +:+ Q +:+ ", " +:+ Q +:+ "I" +:+ Q +:+ ", " +:+ Q +:+ "N" +:+ Q +:+ ", " +:+ Q +:+ "Q" +:+ Q +:+ ", " +:+ Q +:+ "S" +:+ Q +:+ ", " +:+ Q +:+ "T" +:+ Q +:+ ", " +:+ Q +:+ "W" +:+ Q +:+ ", " +:+ Q +:+ "ANN" +:+ Q +:+ ",";
    "    " +:+ Q +:+ "ARG" +:+ Q +:+ ", " +:+ Q +:+ "BLE" +:+ Q +:+ ", " +:+ Q +:+ "COM" +:+ Q +:+ ", " +:+ Q +:+ "DJ" +:+ Q +:+ ", " +:+ Q +:+ "DTZ" +:+ Q +:+ ", " +:+ Q +:+ "EM" +:+ Q +:+ ", " +:+ Q +:+ "ERA" +:+ Q +:+ ", " +:+ Q +:+ "EXE" +:+ Q +:+ ", " +:+ Q +:+ "FBT" +:+ Q +:+ ", " +:+ Q +:+ "ICN" +:+ Q +:+ ", " +:+ Q +:+ "INP" +:+ Q +:+ ",";
    "    " +:+ Q +:+ "ISC" +:+ Q +:+ ", " +:+ Q +:+ "NPY" +:+ Q +:+ ", " +:+ Q +:+ "PD" +:+ Q +:+ ", " +:+ Q +:+ "PGH" +:+ Q +:+ ", " +:+ Q +:+ "PIE" +:+ Q +:+ ", " +:+ Q +:+ "PL" +:+ Q +:+ ", " +:+ Q +:+ "PT" +:+ Q +:+ ", " +:+ Q +:+ "PTH" +:+ Q +:+ ", " +:+ Q +:+ "PYI" +:+ Q +:+ ", " +:+ Q +:+ "RET" +:+ Q +:+ ", " +:+ Q +:+ "RSE" +:+ Q +:+ ",";
    "    " +:+ Q +:+ "RUF" +:+ Q +:+ ", " +:+ Q +:+ "SIM" +:+ Q +:+ ", " +:+ Q +:+ "SLF" +:+ Q +:+ ", " +:+ Q +:+ "TCH" +:+ Q +:+ ", " +:+ Q +:+ "TID" +:+ Q +:+ ", " +:+ Q +:+ "TRY" +:+ Q +:+ ", " +:+ Q +:+ "UP" +:+ Q +:+ ", " +:+ Q +:+ "YTT" +:+ Q +:+ ",";
    "]";
    "lint.ignore = [" +:+ Q +:+ "D203" +:+ Q +:+ ", " +:+ Q +:+ "D212" +:+ Q +:+ ", " +:+ Q +:+ "D400" +:+ Q +:+ ", " +:+ Q +:+ "D415" +:+ Q +:+ ", " +:+ Q +:+ "PLR0913" +:+ Q +:+ ", " +:+ Q +:+ "PLC0415" +:+ Q +:+ "]";
    "exclude = [";
    "    " +:+ Q +:+ ".git" +:+ Q +:+ ",";
    "    " +:+ Q +:+ ".mypy_cache" +:+ Q +:+ ",";
    "    " +:+ Q +:+ ".pytest_cache" +:+ Q +:+ ",";
    "    " +:+ Q +:+ ".ruff_cache" +:+ Q +:+ ",";
    "    " +:+ Q +:+ "build" +:+ Q +:+ ",";
    "    " +:+ Q +:+ "dist" +:+ Q +:+ ",";
    "    " +:+ Q +:+ "tests" +:+ Q +:+ ",";
    "]";
    "# Useful for pre-commit: https://beta.ruff.rs/docs/settings/#force-exclude";
    "force-exclude = true";
    "# https://black.readthedocs.io/en/stable/the_black_code_style/current_style.html#line-length";
    "line-length = 100";
    "# Allow unused variables when underscore-prefixed.";
    "# dummy-variable-rgx = " +:+ Q +:+ "^(_+|(_+[a-zA-Z0-9_]*[a-zA-Z0-9]+?))$" +:+ Q;
    "# Assume Python 3.11 (see `black`)";
    "target-version = " +:+ Q +:+ "py311" +:+ Q;
    "";
    "[tool.ruff.lint.mccabe]";
    "max-complexity = 10";
    "";
    "### TYPE CHECKING";
    "";
    "[tool.mypy]";
    "files = " +:+ Q +:+ "." +:+ Q;
    "ignore_missing_imports = true";
    "exclude = [" +:+ Q +:+ "tests" +:+ Q +:+ "]";
    "";
    "### SECURITY";
    "";
    "# NO CONFIGURATION REQUIRED. INCLUDED IN `ruff` (e.g., `bandit`) AND `pipenv check`.";
    "";
    "### TESTING";
    "";
    "[tool.pytest.ini_options]";
    "addopts = " +:+ Q +:+ "--cov --cov-fail-under=1 --dist=loadscope -n auto" +:+ Q;
    "";
    "[tool.coverage.run]";
    "source = [" +:+ Q +:+ "." +:+ Q +:+ "]";
    "";
    "[tool.coverage.report]";
    "show_missing = true";
    "omit = [" +:+ Q +:+ "*/tests/*" +:+ Q +:+ "]";
    "exclude_lines = [";
    "    " +:+ Q +:+ "pragma: no cover" +:+ Q +:+ ",";
    "    " +:+ Q +:+ "def __repr__" +:+ Q +:+ ",";
    "    " +:+ Q +:+ "raise AssertionError" +:+ Q +:+ ",";
    "    " +:+ Q +:+ "raise NotImplementedError" +:+ Q +:+ ",";
    "    " +:+ Q +:+ "if __name__ == .__main__.:" +:+ Q;
    "]"
  ].

(** The starter module of the [web] archetype. *)
Definition main_content : string :=
  lines [
    "from fastapi import FastAPI";
    "        ";
    "";
    "app = FastAPI()";
    "";
    "@app.get(" +:+ Q +:+ "/" +:+ Q +:+ ")";
    "async def root():";
    "    return {" +:+ Q +:+ "message" +:+ Q +:+ ": " +:+ Q +:+ "Hello World" +:+ Q +:+ "}";
    "";
    "def main():";
    "    import uvicorn";
    "    uvicorn.run(app, host=" +:+ Q +:+ "0.0.0.0" +:+ Q +:+ ", port=8000)";
    "";
    "if __name__ == " +:+ Q +:+ "__main__" +:+ Q +:+ ":";
    "    main()"
  ].

(** The starter module of the [cli] archetype. *)
Definition cli_content : string :=
  lines [
    "import click";
    "";
    "";
    "@click.command()";
    "@click.option('--name', default='World', help='Name to greet')";
    "def main(name):";
    "    " +:+ Q +:+ Q +:+ Q +:+ "Simple CLI application" +:+ Q +:+ Q +:+ Q;
    "    click.echo(f'Hello {name}!')";
    "";
    "if __name__ == '__main__':";
    "    main()"
  ].

(** The default pre-commit configuration. *)
Definition pre_commit_content : string :=
  lines [
    "";
    "repos:";
    "  - repo: local";
    "    hooks:";
    "";
    "      ### CODE FORMATTING";
    "";
    "      - id: black";
    "        name: black";
    "        stages: [ pre-commit ]";
    "        language: system";
    "        entry: pipenv run black .";
    "        types: [ python ]";
    "";
    "      ### CODE STYLE ENFORCEMENT";
    "";
    "      - id: ruff";
    "        name: ruff";
    "        stages: [ pre-commit ]";
    "        language: system";
    "        entry: pipenv run ruff check .";
    "        types: [ python ]";
    "";
    "      ### TYPE CHECKING";
    "";
    "      - id: mypy";
    "        name: mypy";
    "        stages: [ pre-commit ]";
    "        language: system";
    "        entry: pipenv run mypy .";
    "        types: [ python ]";
    "        pass_filenames: false";
    "";
    "      ### SECURITY";
    "";
    "      - id: check";
    "        name: check";
    "        stages: [ pre-push ]";
    "        language: system";
    "        entry: pipenv check";
    "        types: [ python ]";
    "";
    "      ### TESTING";
    "";
    "      - id: pytest";
    "        name: pytest";
    "        stages: [ pre-push ]";
    "        language: system";
    "        entry: pipenv run pytest";
    "        types: [ python ]";
    "        pass_filenames: false";
    ""
  ].

(** ** The class [UVCreateTemplate] *)

Definition lift {A} (r : result A) : M A := fun w => (w, r).

Section methods.
Context `{Runtime}.
Variable env : environ.

(** The built-in templates, [{"basic": self.get_basic_template()}]. *)
Definition default_templates : list (string * string) :=
  [("basic", get_basic_template)].

(** [self.template_dir / f"{name}.toml"] *)
Definition template_path (self : UVCreateTemplate) (name : string) : Path :=
  joinpath (template_dir self) (name +:+ ".toml").

Definition ensure_template_dir (self : UVCreateTemplate) : M unit :=
  exec mkdir_exist_ok env (template_dir self);
  for_each default_templates (fun entry =>
    let template_file := template_path self entry.1 in
    do present <- path_exists env template_file;
    if present : bool then ret tt
    else write_text env template_file entry.2).

(** [UVCreateTemplate(template_dir)] *)
Definition init (template_dir : option string) : M UVCreateTemplate :=
  let self :=
    Self (match template_dir with
          | Some (String c s) => Path_of (String c s)
          | _ => joinpath (home env) ".uv_templates"
          end) in
  exec ensure_template_dir self;
  ret self.

Definition list_templates (self : UVCreateTemplate) : M (list string) :=
  do found <- glob_toml env (template_dir self);
  ret (List.map stem found).

(** The last block of [create_additional_files]: copy the pre-commit
    configuration that sits next to the script, or write the default one. *)
Definition copy_pre_commit_config (project_path : Path) : M unit :=
  let pre_commit_config := joinpath (parent (Path_of (script_file env))) ".pre-commit-config.yaml" in
  do present <- path_exists env pre_commit_config;
  if present : bool then
    exec shutil_copy env pre_commit_config (joinpath project_path ".pre-commit-config.yaml");
    print MsgCopiedPreCommit
  else
    exec print MsgPreCommitMissing;
    write_text env (joinpath project_path ".pre-commit-config.yaml") pre_commit_content.

Definition create_additional_files
    (self : UVCreateTemplate) (project_path : Path) (template project_name : string) : M unit :=
  exec (if String.eqb template "web" then
          let main_file := joinpath (joinpath (joinpath project_path "src") project_name) "main.py" in
          write_text env main_file main_content
        else if String.eqb template "cli" then
          let cli_file := joinpath (joinpath (joinpath project_path "src") project_name) "cli.py" in
          write_text env cli_file cli_content
        else ret tt);
  exec copy_pre_commit_config project_path;
  print MsgAdditionalFiles.

(** The two [except] clauses of [create_project]; they differ in the
    message only. *)
Definition create_project_handler (project_path : Path) (e : exn) : M bool :=
  exec print (match e with
              | CalledProcessError _ => MsgUvInitError e
              | _ => MsgCreateError e
              end);
  do present <- path_exists env project_path;
  exec (if present : bool then rmtree env project_path else ret tt);
  ret false.

(** [if not author_name: author_name = os.getenv("USER", "Your Name")] *)
Definition default_author_name (author_name : option string) : string :=
  match author_name with
  | Some (String c s) => String c s
  | _ => getenv_USER env "Your Name"
  end.

(** [if not author_email: author_email = f"{author_name.lower().replace(' ', '.')}@example.com"] *)
Definition default_author_email (author_name : string) (author_email : option string) : string :=
  match author_email with
  | Some (String c s) => String c s
  | _ => replace_char " " "." (lower author_name) +:+ "@example.com"
  end.

(** The target directory: the explicit override, else the working
    directory joined with the project name. *)
Definition target_path (project_name : string) (target_dir : option string) : Path :=
  match target_dir with
  | Some (String c s) => Path_of (String c s)
  | _ => joinpath (MkPath "/" (cwd env)) project_name
  end.

(** The [try] block of [create_project]. *)
Definition create_project_try
    (self : UVCreateTemplate) (project_path : Path)
    (project_name template author_name author_email : string) : M bool :=
  (* Initialize with UV *)
  exec subprocess_run_check ["uv"; "init"; path_str project_path];
  (* Load and process template *)
  let template_file := template_path self template in
  do found <- path_exists env template_file;
  if negb found then
    exec print (MsgTemplateNotFound template);
    do names <- list_templates self;
    exec print (MsgAvailableTemplates (join ", " names));
    exec rmtree env project_path;
    ret false
  else
    do template_content <- read_text env template_file;
    (* Replace placeholders *)
    do template_content <-
      lift (format [("project_name", project_name);
                    ("author_name", author_name);
                    ("author_email", author_email)] template_content);
    (* Write the customized pyproject.toml *)
    let pyproject_path := joinpath project_path "pyproject.toml" in
    exec write_text env pyproject_path template_content;
    (* Create additional files based on template type *)
    exec create_additional_files self project_path template project_name;
    exec print (MsgCreated project_name template);
    exec print (MsgLocation (path_str project_path));
    exec print MsgNextSteps;
    exec print (MsgCd project_name);
    exec print MsgUvSync;
    ret true.

Definition create_project
    (self : UVCreateTemplate) (project_name template : string)
    (target_dir author_name author_email : option string) : M bool :=
  (* Set default values *)
  let author_name := default_author_name author_name in
  let author_email := default_author_email author_name author_email in
  (* Determine target directory *)
  let project_path := target_path project_name target_dir in
  (* Check if project already exists *)
  do present <- path_exists env project_path;
  if present : bool then
    exec print (MsgDirectoryExists (path_str project_path));
    ret false
  else
    (* Create project directory *)
    exec mkdir_parents env project_path;
    try_except
      (create_project_try self project_path project_name template author_name author_email)
      (create_project_handler project_path).

Definition create_custom_template
    (self : UVCreateTemplate) (template_name template_content : string) : M unit :=
  exec write_text env (template_path self template_name) template_content;
  print (MsgCustomTemplate template_name).

(** The read that [show_template] and [create_project] perform. *)
Definition show_template (self : UVCreateTemplate) (template_name : string) : M unit :=
  let template_file := template_path self template_name in
  do found <- path_exists env template_file;
  if negb found then print (MsgShowMissing template_name)
  else
    do content <- read_text env template_file;
    exec print (MsgShowHeader template_name);
    exec print MsgShowRule;
    print (MsgShowContent content).

(** The body of [reset_default_template] for a name other than [all]. *)
Definition reset_named (self : UVCreateTemplate) (template_name : string) : M unit :=
  match dict_get default_templates template_name with
  | None => print (MsgResetUnknown template_name)
  | Some body =>
      exec write_text env (template_path self template_name) body;
      print (MsgReset template_name)
  end.

(** [reset_default_template]: for [all] the method calls itself once per
    built-in name, none of which is [all]. *)
Definition reset_default_template (self : UVCreateTemplate) (template_name : string) : M unit :=
  if String.eqb template_name "all" then
    exec for_each (List.map fst default_templates) (reset_named self);
    print MsgResetAll
  else reset_named self template_name.
End methods.

(** The manifest the canonical [basic] body renders to: the body with its
    doubled braces single and its three markers replaced. *)

Definition manifest_head : string :=
  ("") +:+ nl +:+
  lines [
    "";
    "[project]"
  ] +:+
  ("name = " +:+ Q).

Definition manifest_after_name : string :=
  (Q) +:+ nl +:+
  lines [
    "version = " +:+ Q +:+ "0.1.0" +:+ Q;
    "description = " +:+ Q +:+ "A basic Python project" +:+ Q;
    "authors = ["
  ] +:+
  ("    {name = " +:+ Q).

Definition manifest_after_author : string :=
  Q +:+ ", email = " +:+ Q.

Definition manifest_tail : string :=
  (Q +:+ "}") +:+ nl +:+
  lines [
    "]";
    "dependencies = []";
    "readme = " +:+ Q +:+ "README.md" +:+ Q;
    "requires-python = " +:+ Q +:+ ">=3.11" +:+ Q;
    "";
    "[dependency-groups]";
    "dev = [";
    "    " +:+ Q +:+ "pytest>=7.0" +:+ Q +:+ ",";
    "    " +:+ Q +:+ "black>=22.0" +:+ Q +:+ ",";
    "    " +:+ Q +:+ "ruff>=0.1.0" +:+ Q +:+ ",";
    "    " +:+ Q +:+ "pre-commit>=2.0.0" +:+ Q +:+ ",";
    "    " +:+ Q +:+ "mypy>=0.910" +:+ Q;
    "]";
    "[[tool.uv.index]]";
    "name = " +:+ Q +:+ "pytorch-cu118" +:+ Q;
    "url = " +:+ Q +:+ "https://download.pytorch.org/whl/cu118" +:+ Q;
    "explicit = true";
    "";
    "### CODE FORMATTING";
    "";
    "[tool.black]";
    "# https://black.readthedocs.io/en/stable/the_black_code_style/current_style.html#line-length";
    "line-length = 100";
    "# Assume Python 3.11 (see `ruff`)";
    "target-version = ['py311']";
    "extend-exclude = '''";
    "(";
    "  ^/notebooks";
    "  | ^/.pytest_cache";
    "  | ^/.ruff_cache";
    ")";
    "'''";
    "";
    "### CODE STYLE ENFORCEMENT";
    "";
    "[tool.ruff]";
    "fix = true";
    "lint.select = [";
    "    " +:+ Q +:+ "A" +:+ Q +:+ ", " +:+ Q +:+ "B" +:+ Q +:+ ", " +:+ Q +:+ "C" +:+ Q +:+ ", " +:+ Q +:+ "D" +:+ Q +:+ ", " +:+ Q +:+ "E" +:+ Q +:+ ", " +:+ Q +:+ "F" +:+ Q +:+ ", " +:+ Q +:+ "G" +:+ Q +:+ ", " +:+ Q +:+ "I" +:+ Q +:+ ", " +:+ Q +:+ "N" +:+ Q +:+ ", " +:+ Q +:+ "Q" +:+ Q +:+ ", " +:+ Q +:+ "S" +:+ Q +:+ ", " +:+ Q +:+ "T" +:+ Q +:+ ", " +:+ Q +:+ "W" +:+ Q +:+ ", " +:+ Q +:+ "ANN" +:+ Q +:+ ",";
    "    " +:+ Q +:+ "ARG" +:+ Q +:+ ", " +:+ Q +:+ "BLE" +:+ Q +:+ ", " +:+ Q +:+ "COM" +:+ Q +:+ ", " +:+ Q +:+ "DJ" +:+ Q +:+ ", " +:+ Q +:+ "DTZ" +:+ Q +:+ ", " +:+ Q +:+ "EM" +:+ Q +:+ ", " +:+ Q +:+ "ERA" +:+ Q +:+ ", " +:+ Q +:+ "EXE" +:+ Q +:+ ", " +:+ Q +:+ "FBT" +:+ Q +:+ ", " +:+ Q +:+ "ICN" +:+ Q +:+ ", " +:+ Q +:+ "INP" +:+ Q +:+ ",";
    "    " +:+ Q +:+ "ISC" +:+ Q +:+ ", " +:+ Q +:+ "NPY" +:+ Q +:+ ", " +:+ Q +:+ "PD" +:+ Q +:+ ", " +:+ Q +:+ "PGH" +:+ Q +:+ ", " +:+ Q +:+ "PIE" +:+ Q +:+ ", " +:+ Q +:+ "PL" +:+ Q +:+ ", " +:+ Q +:+ "PT" +:+ Q +:+ ", " +:+ Q +:+ "PTH" +:+ Q +:+ ", " +:+ Q +:+ "PYI" +:+ Q +:+ ", " +:+ Q +:+ "RET" +:+ Q +:+ ", " +:+ Q +:+ "RSE" +:+ Q +:+ ",";
    "    " +:+ Q +:+ "RUF" +:+ Q +:+ ", " +:+ Q +:+ "SIM" +:+ Q +:+ ", " +:+ Q +:+ "SLF" +:+ Q +:+ ", " +:+ Q +:+ "TCH" +:+ Q +:+ ", " +:+ Q +:+ "TID" +:+ Q +:+ ", " +:+ Q +:+ "TRY" +:+ Q +:+ ", " +:+ Q +:+ "UP" +:+ Q +:+ ", " +:+ Q +:+ "YTT" +:+ Q +:+ ",";
    "]";
    "lint.ignore = [" +:+ Q +:+ "D203" +:+ Q +:+ ", " +:+ Q +:+ "D212" +:+ Q +:+ ", " +:+ Q +:+ "D400" +:+ Q +:+ ", " +:+ Q +:+ "D415" +:+ Q +:+ ", " +:+ Q +:+ "PLR0913" +:+ Q +:+ ", " +:+ Q +:+ "PLC0415" +:+ Q +:+ "]";
    "exclude = [";
    "    " +:+ Q +:+ ".git" +:+ Q +:+ ",";
    "    " +:+ Q +:+ ".mypy_cache" +:+ Q +:+ ",";
    "    " +:+ Q +:+ ".pytest_cache" +:+ Q +:+ ",";
    "    " +:+ Q +:+ ".ruff_cache" +:+ Q +:+ ",";
    "    " +:+ Q +:+ "build" +:+ Q +:+ ",";
    "    " +:+ Q +:+ "dist" +:+ Q +:+ ",";
    "    " +:+ Q +:+ "tests" +:+ Q +:+ ",";
    "]";
    "# Useful for pre-commit: https://beta.ruff.rs/docs/settings/#force-exclude";
    "force-exclude = true";
    "# https://black.readthedocs.io/en/stable/the_black_code_style/current_style.html#line-length";
    "line-length = 100";
    "# Allow unused variables when underscore-prefixed.";
    "# dummy-variable-rgx = " +:+ Q +:+ "^(_+|(_+[a-zA-Z0-9_]*[a-zA-Z0-9]+?))$" +:+ Q;
    "# Assume Python 3.11 (see `black`)";
    "target-version = " +:+ Q +:+ "py311" +:+ Q;
    "";
    "[tool.ruff.lint.mccabe]";
    "max-complexity = 10";
    "";
    "### TYPE CHECKING";
    "";
    "[tool.mypy]";
    "files = " +:+ Q +:+ "." +:+ Q;
    "ignore_missing_imports = true";
    "exclude = [" +:+ Q +:+ "tests" +:+ Q +:+ "]";
    "";
    "### SECURITY";
    "";
    "# NO CONFIGURATION REQUIRED. INCLUDED IN `ruff` (e.g., `bandit`) AND `pipenv check`.";
    "";
    "### TESTING";
    "";
    "[tool.pytest.ini_options]";
    "addopts = " +:+ Q +:+ "--cov --cov-fail-under=1 --dist=loadscope -n auto" +:+ Q;
    "";
    "[tool.coverage.run]";
    "source = [" +:+ Q +:+ "." +:+ Q +:+ "]";
    "";
    "[tool.coverage.report]";
    "show_missing = true";
    "omit = [" +:+ Q +:+ "*/tests/*" +:+ Q +:+ "]";
    "exclude_lines = [";
    "    " +:+ Q +:+ "pragma: no cover" +:+ Q +:+ ",";
    "    " +:+ Q +:+ "def __repr__" +:+ Q +:+ ",";
    "    " +:+ Q +:+ "raise AssertionError" +:+ Q +:+ ",";
    "    " +:+ Q +:+ "raise NotImplementedError" +:+ Q +:+ ",";
    "    " +:+ Q +:+ "if __name__ == .__main__.:" +:+ Q;
    "]"
  ] +:+
  ("").

Definition basic_manifest (project_name author_name author_email : string) : string :=
  manifest_head +:+ project_name +:+
  manifest_after_name +:+ author_name +:+
  manifest_after_author +:+ author_email +:+
  manifest_tail.

(** ** Vocabulary of the properties *)

Fixpoint all_chars (P : ascii -> bool) (s : string) : bool :=
  match s with
  | "" => true
  | String c s' => P c && all_chars P s'
  end.

Definition is_brace (c : ascii) : bool := Ascii.eqb c "{" || Ascii.eqb c "}".

(** A text without any brace character. *)
Definition brace_free (s : string) : bool := all_chars (fun c => negb (is_brace c)) s.

(** A text without any carriage return. *)
Definition cr_free (s : string) : bool := all_chars (fun c => negb (Ascii.eqb c "013")) s.


(** The placeholder marker of a name. *)
Definition marker (name : string) : string := "{" +:+ name +:+ "}".


(** Whether [sub] occurs in [s]. *)
Fixpoint contains (sub s : string) : bool :=
  String.prefix sub s
  || match s with
     | "" => false
     | String _ s' => contains sub s'
     end.

(** Where the project directory of a call lies. *)
Definition project_key (env : environ) (project_name : string) (target_dir : option string)
    : list string :=
  locate env (target_path env project_name target_dir).

(** The command line [create_project] hands to the operating system. *)
Definition bootstrap_argv (env : environ) (project_name : string) (target_dir : option string)
    : list string :=
  ["uv"; "init"; path_str (target_path env project_name target_dir)].

(** The bootstrap run of a call whose target was absent from [fs]: the
    directory has been made, then the command runs. *)
Definition bootstrap `{Runtime} (env : environ) (project_name : string) (target_dir : option string)
    (fs : gmap (list string) node) : gmap (list string) node * proc_result :=
  run_process (bootstrap_argv env project_name target_dir)
              (make_dirs (project_key env project_name target_dir) fs).

(** The starter module [create_additional_files] writes for a template
    name, with its file name. *)
Definition starter_file (template : string) : option (string * string) :=
  if String.eqb template "web" then Some ("main.py", main_content)
  else if String.eqb template "cli" then Some ("cli.py", cli_content)
  else None.

(** The keys a computation may change: outside [P] every lookup is kept. *)
Definition footprint {A} (P : list string -> Prop) (m : M A) : Prop :=
  forall w q, ~ P q -> files (m w).1 !! q = files w !! q.

(** A computation that never removes or replaces a directory. *)
Definition dirs_stay {A} (m : M A) : Prop :=
  forall w q, files w !! q = Some Dir -> files (m w).1 !! q = Some Dir.

(** A computation whose normal results all satisfy [R]. *)
Definition returns {A} (R : A -> Prop) (m : M A) : Prop :=
  forall w a, (m w).2 = Ok a -> R a.

(** ** A concrete runtime, environment and worlds

    Used to run the definitions on explicit inputs. The process stand-in
    writes what a project bootstrap leaves behind (a manifest and a source
    package) when it is given exit code 0, and touches nothing otherwise. *)

Definition demo_scaffold (k : list string) (fs : gmap (list string) node) : gmap (list string) node :=
  let package := List.last k "" in
  <[(k ++ ["src"; package])%list := Dir]>
    (<[(k ++ ["src"])%list := Dir]>
      (<[(k ++ ["pyproject.toml"])%list := File "[project]"]> fs)).

Definition demo_runtime (code : Z) : Runtime := {|
  field_object := fun _ _ _ => Raise AttributeError;
  str_format := fun _ _ => Raise (ValueError "Invalid format specifier");
  run_process := fun argv fs =>
    match argv with
    | ["uv"; "init"; p] =>
        if (code =? 0)%Z then (demo_scaffold (parts (Path_of p)) fs, Exited code)
        else (fs, Exited code)
    | _ => (fs, SpawnFailed FileNotFoundError)
    end
|}.

Definition demo_env (user : option string) : environ :=
  Environ user ["home"; "ada"; "work"] (MkPath "/" ["home"; "ada"]) "/opt/tools/uv-create.py".

Definition demo_self : UVCreateTemplate :=
  Self (MkPath "/" ["home"; "ada"; ".uv_templates"]).

Definition demo_files : gmap (list string) node :=
  list_to_map [
    (["home"], Dir);
    (["home"; "ada"], Dir);
    (["home"; "ada"; "work"], Dir);
    (["home"; "ada"; "work"; "old"], Dir);
    (["home"; "ada"; "work"; "old"; "notes.txt"], File "keep");
    (["home"; "ada"; ".uv_templates"], Dir);
    (["home"; "ada"; ".uv_templates"; "basic.toml"], File get_basic_template);
    (["home"; "ada"; ".uv_templates"; "web.toml"], File "name = {project_name}");
    (["home"; "ada"; ".uv_templates"; "cli.toml"], File "name = {project_name}");
    (["home"; "ada"; ".uv_templates"; "pinned.toml"], File "name = {project_name}-{version}");
    (["home"; "ada"; ".uv_templates"; "braces.toml"], File "extras = {{}}");
    (["opt"], Dir);
    (["opt"; "tools"], Dir)
  ].

Definition demo_world : world := World demo_files [] [].

Definition uv_ok : Runtime := demo_runtime 0.
Definition uv_exit_3 : Runtime := demo_runtime 3.
Definition ada : environ := demo_env (Some "Ada Lovelace").

(** ** Further vocabulary: the template store and the scope of a run *)

(** A name without a path separator. *)
Definition slash_free (s : string) : bool :=
  all_chars (fun c => negb (Ascii.eqb c "/")) s.

(** A computation that spawns no process. *)
Definition quiet {A} (m : M A) : Prop :=
  forall w, spawned (m w).1 = spawned w.

(** A computation that may add entries but leaves every existing one as
    it is. *)
Definition adds_only {A} (m : M A) : Prop :=
  forall w q, is_Some (files w !! q) -> files (m w).1 !! q = files w !! q.

(** Where the constructor puts the template store: the given directory,
    else [.uv_templates] under the home directory. *)
Definition store_path (env : environ) (dir : option string) : Path :=
  match dir with
  | Some (String c s) => Path_of (String c s)
  | _ => joinpath (home env) ".uv_templates"
  end.

(** A home directory in which the tool has never run. *)
Definition fresh_world : world :=
  World (list_to_map [(["home"], Dir); (["home"; "ada"], Dir)]) [] [].

(** * Properties *)

(** ** Strings *)

Lemma append_cons (x : ascii) (a b : string) : String x a +:+ b = String x (a +:+ b).
Proof. reflexivity. Qed.

Lemma append_nil_l (a : string) : "" +:+ a = a.
Proof. reflexivity. Qed.

Lemma append_assoc (a b c : string) : (a +:+ b) +:+ c = a +:+ (b +:+ c).
Proof.
  induction a as [|x a IH]; [reflexivity|].
  rewrite !append_cons. now rewrite IH.
Qed.

Lemma append_nil_r (a : string) : a +:+ "" = a.
Proof.
  induction a as [|x a IH]; [reflexivity|].
  rewrite append_cons. now rewrite IH.
Qed.

Lemma snoc_append (a b : string) (c : ascii) : snoc a c +:+ b = a +:+ String c b.
Proof. unfold snoc. now rewrite append_assoc. Qed.




(** Text without a carriage return is read as it was written. *)
Lemma universal_newlines_cr_free (s : string) :
  cr_free s = true -> universal_newlines s = s.
Proof.
  unfold cr_free. induction s as [|c s IH]; [reflexivity|].
  cbn [all_chars universal_newlines]. intros E. apply andb_prop in E as [Hc Hs].
  destruct (Ascii.eqb c "013"); [discriminate|]. now rewrite IH.
Qed.

Lemma universal_newlines_basic : universal_newlines get_basic_template = get_basic_template.
Proof. vm_compute. reflexivity. Qed.

(** ** The scanner *)

Section scan_facts.
Context `{Runtime}.
Variable kwargs : list (string * string).
Variable expand : string -> result string.







End scan_facts.

(** ** [format] *)

Section format_facts.
Context `{Runtime}.






(** The canonical body renders to the manifest with the three values in
    place. *)
Lemma format_basic (pn an ae : string) :
  format [("project_name", pn); ("author_name", an); ("author_email", ae)] get_basic_template
  = Ok (basic_manifest pn an ae).
Proof. vm_compute. reflexivity. Qed.
End format_facts.

(** ** The monad *)

Lemma bind_Ok {A B} (m : M A) (f : A -> M B) (w w1 : world) (a : A) :
  m w = (w1, Ok a) -> bind m f w = f a w1.
Proof. intros E. unfold bind. now rewrite E. Qed.

Lemma bind_Raise {A B} (m : M A) (f : A -> M B) (w w1 : world) (e : exn) :
  m w = (w1, Raise e) -> bind m f w = (w1, Raise e).
Proof. intros E. unfold bind. now rewrite E. Qed.

Lemma bind_Ok_inv {A B} (m : M A) (f : A -> M B) (w w' : world) (b : B) :
  bind m f w = (w', Ok b) -> exists a w1, m w = (w1, Ok a) /\ f a w1 = (w', Ok b).
Proof.
  unfold bind. destruct (m w) as [w1 [a|e]]; intros E; [eauto | discriminate].
Qed.

Lemma footprint_weaken {A} (P P' : list string -> Prop) (m : M A) :
  (forall q, P q -> P' q) -> footprint P m -> footprint P' m.
Proof. intros HP Hm w q Hq. apply Hm. intros Pq. apply Hq, HP, Pq. Qed.

Lemma footprint_bind {A B} (P : list string -> Prop) (m : M A) (f : A -> M B) :
  footprint P m -> (forall a, footprint P (f a)) -> footprint P (bind m f).
Proof.
  intros Hm Hf w q Hq. specialize (Hm w q Hq). unfold bind.
  destruct (m w) as [w1 [a|e]]; simpl in *; [|exact Hm].
  now rewrite (Hf a w1 q Hq).
Qed.

Lemma footprint_pure {A} (P : list string -> Prop) (m : M A) :
  (forall w, files (m w).1 = files w) -> footprint P m.
Proof. intros E w q _. now rewrite E. Qed.

Lemma dirs_stay_bind {A B} (m : M A) (f : A -> M B) :
  dirs_stay m -> (forall a, dirs_stay (f a)) -> dirs_stay (bind m f).
Proof.
  intros Hm Hf w q Hq. specialize (Hm w q Hq). unfold bind.
  destruct (m w) as [w1 [a|e]]; simpl in *; [|exact Hm].
  now apply Hf.
Qed.

Lemma dirs_stay_pure {A} (m : M A) :
  (forall w, files (m w).1 = files w) -> dirs_stay m.
Proof. intros E w q Hq. now rewrite E. Qed.

Lemma returns_bind {A B} (R : B -> Prop) (m : M A) (f : A -> M B) :
  (forall a, returns R (f a)) -> returns R (bind m f).
Proof.
  intros Hf w b. unfold bind. destruct (m w) as [w1 [a|e]]; simpl; [apply Hf | discriminate].
Qed.

Lemma returns_ret {A} (R : A -> Prop) (a : A) : R a -> returns R (ret a).
Proof. intros Ha w b E. now injection E as <-. Qed.

(** ** Paths *)

Lemma locate_joinpath (env : environ) (p : Path) (s : string) :
  Path_of s = MkPath "" [s] ->
  locate env (joinpath p s) = (locate env p ++ [s])%list.
Proof.
  intros Hs. unfold joinpath, locate. rewrite Hs. cbn [anchor parts].
  destruct (anchor p); [now rewrite app_assoc | reflexivity].
Qed.

Lemma basename_joinpath (p : Path) (s : string) :
  Path_of s = MkPath "" [s] -> basename (joinpath p s) = s.
Proof.
  intros Hs. unfold joinpath, basename. rewrite Hs. cbn [anchor parts].
  apply List.last_last.
Qed.

Lemma lookup_node_Dir_ne (fs : gmap (list string) node) (k q : list string) :
  lookup_node fs k <> Some Dir -> fs !! q = Some Dir -> k <> q.
Proof.
  intros Hk Hq ->. apply Hk. destruct q; [reflexivity | exact Hq].
Qed.

Lemma lookup_node_nonempty (fs : gmap (list string) node) (k : list string) :
  k <> [] -> lookup_node fs k = fs !! k.
Proof. now destruct k. Qed.

Lemma lookup_node_None (fs : gmap (list string) node) (k : list string) :
  lookup_node fs k = None -> k <> [] /\ fs !! k = None.
Proof. destruct k; [discriminate | intros E; split; [discriminate | exact E]]. Qed.

Lemma remove_tree_under (fs : gmap (list string) node) (k q : list string) :
  k `prefix_of` q -> remove_tree k fs !! q = None.
Proof.
  intros Hp. unfold remove_tree. apply map_lookup_filter_None.
  right. intros x _ Hn. now apply Hn.
Qed.

Lemma remove_tree_outside (fs : gmap (list string) node) (k q : list string) :
  ~ k `prefix_of` q -> remove_tree k fs !! q = fs !! q.
Proof.
  intros Hp. unfold remove_tree.
  destruct (fs !! q) as [x|] eqn:E.
  - apply map_lookup_filter_Some. split; [exact E | exact Hp].
  - apply map_lookup_filter_None. now left.
Qed.

(** ** Making directories *)

Lemma prefixes_snoc (k : list string) (x : string) :
  prefixes (k ++ [x]) = (prefixes k ++ [(k ++ [x])%list])%list.
Proof.
  induction k as [|a k IH]; [reflexivity|].
  cbn [prefixes app]. rewrite IH, List.map_app. reflexivity.
Qed.

Lemma prefixes_length (k q : list string) :
  q ∈ prefixes k -> length q <= length k.
Proof.
  revert q. induction k as [|a k IH]; intros q Hq; cbn [prefixes] in Hq.
  - now apply elem_of_nil in Hq.
  - apply elem_of_cons in Hq as [->|Hq]; [cbn; lia|].
    apply list_elem_of_In, List.in_map_iff in Hq as (q' & <- & Hq').
    apply list_elem_of_In, IH in Hq'. cbn. lia.
Qed.

Lemma make_dirs_step_other (l : list (list string)) (fs : gmap (list string) node)
      (k : list string) :
  (forall q, q ∈ l -> q <> k) ->
  foldl (fun acc q => match acc !! q with None => <[q := Dir]> acc | Some _ => acc end) fs l
    !! k = fs !! k.
Proof.
  revert fs. induction l as [|q l IH]; intros fs Hl; [reflexivity|].
  cbn [foldl]. rewrite IH by (intros q' Hq'; apply Hl; now right).
  destruct (fs !! q); [reflexivity|].
  apply lookup_insert_ne, Hl. now left.
Qed.

(** [mkdir(parents=True)] leaves the target as a directory. *)
Lemma make_dirs_target (fs : gmap (list string) node) (k : list string) :
  k <> [] -> fs !! k = None -> make_dirs k fs !! k = Some Dir.
Proof.
  intros Hk Hn. destruct (exists_last Hk) as (k0 & x & ->).
  unfold make_dirs. rewrite prefixes_snoc, foldl_app. cbn [foldl].
  rewrite make_dirs_step_other.
  - rewrite Hn. apply lookup_insert_eq.
  - intros q Hq ->. apply prefixes_length in Hq. rewrite length_app in Hq. cbn in Hq. lia.
Qed.

(** ** File-system operations *)

Section operation_facts.
Context `{Runtime}.
Variable env : environ.

Lemma write_text_Ok_inv (p : Path) (c : string) (w w' : world) (u : unit) :
  write_text env p c w = (w', Ok u) ->
  w' = set_files (<[locate env p := File c]> (files w)) w
  /\ lookup_node (files w) (locate env p) <> Some Dir.
Proof.
  unfold write_text.
  destruct (lookup_node (files w) (locate env p)) as [[x|]|] eqn:E;
    try discriminate;
    destruct (lookup_node (files w) (removelast (locate env p))) as [[y|]|];
    intros [= <-]; split; congruence.
Qed.

Lemma write_text_files (p : Path) (c : string) (w : world) :
  files (write_text env p c w).1 = files w
  \/ (files (write_text env p c w).1 = <[locate env p := File c]> (files w)
      /\ lookup_node (files w) (locate env p) <> Some Dir).
Proof.
  unfold write_text.
  destruct (lookup_node (files w) (locate env p)) as [[x|]|] eqn:E; auto;
    destruct (lookup_node (files w) (removelast (locate env p))) as [[y|]|]; auto;
    right; split; try reflexivity; congruence.
Qed.

Lemma footprint_write_text (P : list string -> Prop) (p : Path) (c : string) :
  P (locate env p) -> footprint P (write_text env p c).
Proof.
  intros HP w q Hq. destruct (write_text_files p c w) as [->|[-> _]]; [reflexivity|].
  apply lookup_insert_ne. intros <-. now apply Hq.
Qed.

Lemma dirs_stay_write_text (p : Path) (c : string) : dirs_stay (write_text env p c).
Proof.
  intros w q Hq. destruct (write_text_files p c w) as [->|[-> Hk]]; [exact Hq|].
  rewrite lookup_insert_ne; [exact Hq|]. now apply (lookup_node_Dir_ne (files w)).
Qed.

Lemma read_text_world (p : Path) (w : world) : (read_text env p w).1 = w.
Proof.
  unfold read_text. now destruct (lookup_node (files w) (locate env p)) as [[x|]|].
Qed.

Lemma read_text_Ok_inv (p : Path) (w w' : world) (c : string) :
  read_text env p w = (w', Ok c) ->
  w' = w
  /\ exists stored,
       lookup_node (files w) (locate env p) = Some (File stored)
       /\ c = universal_newlines stored.
Proof.
  unfold read_text. destruct (lookup_node (files w) (locate env p)) as [[x|]|];
    intros [= <- <-] || intros [=]; eauto.
Qed.

Lemma read_bytes_world (p : Path) (w : world) : (read_bytes env p w).1 = w.
Proof.
  unfold read_bytes. now destruct (lookup_node (files w) (locate env p)) as [[x|]|].
Qed.

Lemma read_bytes_Ok_inv (p : Path) (w w' : world) (c : string) :
  read_bytes env p w = (w', Ok c) ->
  w' = w /\ lookup_node (files w) (locate env p) = Some (File c).
Proof.
  unfold read_bytes. destruct (lookup_node (files w) (locate env p)) as [[x|]|];
    intros [= <- <-] || intros [=]; auto.
Qed.

Lemma print_files (m : message) (w : world) : files (print m w).1 = files w.
Proof. reflexivity. Qed.

Lemma path_exists_files (p : Path) (w : world) : files (path_exists env p w).1 = files w.
Proof. reflexivity. Qed.

Lemma shutil_copy_files (src dst : Path) (w : world) :
  files (shutil_copy env src dst w).1 = files w
  \/ exists d c,
       (d = dst \/ d = joinpath dst (basename src))
       /\ files (shutil_copy env src dst w).1 = <[locate env d := File c]> (files w)
       /\ lookup_node (files w) (locate env d) <> Some Dir.
Proof.
  unfold shutil_copy.
  set (d := match lookup_node (files w) (locate env dst) with
            | Some Dir => joinpath dst (basename src)
            | _ => dst
            end).
  assert (d = dst \/ d = joinpath dst (basename src)) as Hd.
  { subst d. destruct (lookup_node (files w) (locate env dst)) as [[x|]|]; auto. }
  destruct (bool_decide (locate env src = locate env d)
            && bool_decide (is_Some (lookup_node (files w) (locate env src)))); [now left|].
  unfold bind. pose proof (read_bytes_world src w) as Hr.
  destruct (read_bytes env src w) as [w1 [c|e]]; simpl in Hr; subst w1; [|now left].
  destruct (write_text_files d c w) as [E|[E Hk]]; [now left|].
  right. exists d, c. auto.
Qed.

Lemma footprint_shutil_copy (P : list string -> Prop) (src dst : Path) :
  P (locate env dst) -> P (locate env (joinpath dst (basename src))) ->
  footprint P (shutil_copy env src dst).
Proof.
  intros H1 H2 w q Hq.
  destruct (shutil_copy_files src dst w) as [->|(d & c & Hd & -> & _)]; [reflexivity|].
  apply lookup_insert_ne. intros <-. apply Hq. now destruct Hd as [->| ->].
Qed.

Lemma dirs_stay_shutil_copy (src dst : Path) : dirs_stay (shutil_copy env src dst).
Proof.
  intros w q Hq.
  destruct (shutil_copy_files src dst w) as [->|(d & c & _ & -> & Hk)]; [exact Hq|].
  rewrite lookup_insert_ne; [exact Hq|]. now apply (lookup_node_Dir_ne (files w)).
Qed.
End operation_facts.

(** ** The methods *)

Section method_facts.
Context `{Runtime}.
Variable env : environ.

Lemma path_exists_eq (p : Path) (w : world) (o : option node) :
  lookup_node (files w) (locate env p) = o ->
  path_exists env p w = (w, Ok (match o with Some _ => true | None => false end)).
Proof. intros <-. unfold path_exists. now destruct (lookup_node _ _). Qed.

Lemma pre_commit_key (pp : Path) :
  locate env (joinpath pp ".pre-commit-config.yaml")
  = (locate env pp ++ [".pre-commit-config.yaml"])%list.
Proof. now apply locate_joinpath. Qed.

Lemma footprint_copy_pre_commit_config (pp : Path) :
  footprint (fun q => last q = Some ".pre-commit-config.yaml")
            (copy_pre_commit_config env pp).
Proof.
  unfold copy_pre_commit_config.
  apply footprint_bind; [now apply footprint_pure|]. intros [|].
  - apply footprint_bind; [|intros; now apply footprint_pure].
    apply footprint_shutil_copy.
    + rewrite pre_commit_key. apply last_snoc.
    + rewrite basename_joinpath by reflexivity.
      rewrite locate_joinpath by reflexivity. apply last_snoc.
  - apply footprint_bind; [now apply footprint_pure|]. intros _.
    apply footprint_write_text. rewrite pre_commit_key. apply last_snoc.
Qed.

Lemma dirs_stay_copy_pre_commit_config (pp : Path) :
  dirs_stay (copy_pre_commit_config env pp).
Proof.
  unfold copy_pre_commit_config.
  apply dirs_stay_bind; [now apply dirs_stay_pure|]. intros [|].
  - apply dirs_stay_bind; [apply dirs_stay_shutil_copy | intros; now apply dirs_stay_pure].
  - apply dirs_stay_bind; [now apply dirs_stay_pure | intros; apply dirs_stay_write_text].
Qed.

Lemma dirs_stay_create_additional_files (self : UVCreateTemplate) (pp : Path) (t pn : string) :
  dirs_stay (create_additional_files env self pp t pn).
Proof.
  unfold create_additional_files.
  apply dirs_stay_bind.
  { destruct (String.eqb t "web"); [apply dirs_stay_write_text|].
    destruct (String.eqb t "cli"); [apply dirs_stay_write_text | now apply dirs_stay_pure]. }
  intros _. apply dirs_stay_bind; [apply dirs_stay_copy_pre_commit_config|].
  intros; now apply dirs_stay_pure.
Qed.

(** The handlers remove a project directory that is in place. *)
Lemma create_project_handler_removes (pp : Path) (e : exn) (w : world) :
  files w !! locate env pp = Some Dir ->
  locate env pp <> [] ->
  create_project_handler env pp e w
  = (World (remove_tree (locate env pp) (files w))
           (stdout w ++ [match e with
                         | CalledProcessError _ => MsgUvInitError e
                         | _ => MsgCreateError e
                         end])
           (spawned w),
     Ok false).
Proof.
  intros Hd Hk. unfold create_project_handler.
  unfold bind at 1. cbn [print].
  erewrite bind_Ok; cycle 1.
  { apply (path_exists_eq _ _ (Some Dir)). cbn [files].
    now rewrite lookup_node_nonempty. }
  cbn iota. unfold bind, rmtree, ret. cbn [files].
  rewrite lookup_node_nonempty by exact Hk. rewrite Hd.
  destruct (locate env pp); [congruence | reflexivity].
Qed.

Lemma create_project_handler_false (pp : Path) (e : exn) :
  returns (fun b => b = false) (create_project_handler env pp e).
Proof.
  unfold create_project_handler.
  do 3 (apply returns_bind; intros ?). now apply returns_ret.
Qed.

Lemma subprocess_run_check_eq (argv : list string) (w : world)
      (fs : gmap (list string) node) (r : proc_result) :
  run_process argv (files w) = (fs, r) ->
  subprocess_run_check argv w
  = (World fs (stdout w) (spawned w ++ [argv]),
     match r with
     | Exited 0 => Ok tt
     | Exited code => Raise (CalledProcessError code)
     | SpawnFailed e => Raise e
     end).
Proof.
  intros E. unfold subprocess_run_check. rewrite E.
  destruct r as [[| |]|]; reflexivity.
Qed.
End method_facts.

(** ** [create_project] *)

Section create_project_facts.
Context `{Runtime}.
Variable env : environ.
Variable self : UVCreateTemplate.
Variables (pp : Path) (pn t an ae : string).

(** The world right after the bootstrap command has run. *)
Lemma try_bootstrap_failed (w1 : world) (fs2 : gmap (list string) node) (r : proc_result) :
  run_process ["uv"; "init"; path_str pp] (files w1) = (fs2, r) ->
  r <> Exited 0 ->
  create_project_try env self pp pn t an ae w1
  = (World fs2 (stdout w1) (spawned w1 ++ [["uv"; "init"; path_str pp]]),
     Raise (match r with
            | Exited code => CalledProcessError code
            | SpawnFailed e => e
            end)).
Proof.
  intros Hrun Hr. unfold create_project_try.
  erewrite bind_Raise; [reflexivity|].
  rewrite (subprocess_run_check_eq _ _ _ _ Hrun).
  destruct r as [[| |]|]; congruence.
Qed.

Lemma try_template_missing (w1 : world) (fs2 : gmap (list string) node) :
  run_process ["uv"; "init"; path_str pp] (files w1) = (fs2, Exited 0) ->
  lookup_node fs2 (locate env (template_path self t)) = None ->
  fs2 !! locate env pp = Some Dir ->
  locate env pp <> [] ->
  create_project_try env self pp pn t an ae w1
  = (World (remove_tree (locate env pp) fs2)
           (stdout w1 ++ [MsgTemplateNotFound t;
                          MsgAvailableTemplates
                            (join ", " (List.map stem
                               (List.filter (ends_with ".toml")
                                  (listdir fs2 (locate env (template_dir self))))))])
           (spawned w1 ++ [["uv"; "init"; path_str pp]]),
     Ok false).
Proof.
  intros Hrun Ht Hd Hk. unfold create_project_try.
  erewrite bind_Ok by (rewrite (subprocess_run_check_eq _ _ _ _ Hrun); reflexivity).
  erewrite bind_Ok by (apply (path_exists_eq _ _ _ None); exact Ht).
  cbn [negb]. unfold bind, print, list_templates, glob_toml, bind, ret, rmtree.
  cbn [files stdout spawned].
  rewrite lookup_node_nonempty by exact Hk. rewrite Hd.
  destruct (locate env pp); [congruence|].
  unfold set_files. cbn [files stdout spawned]. now rewrite <- app_assoc.
Qed.


(** What a successful run of the [try] block went through. *)
Lemma try_success_inv (w1 w' : world) :
  create_project_try env self pp pn t an ae w1 = (w', Ok true) ->
  exists fs2 c manifest w3,
    run_process ["uv"; "init"; path_str pp] (files w1) = (fs2, Exited 0)
    /\ lookup_node fs2 (locate env (template_path self t)) = Some (File c)
    /\ format [("project_name", pn); ("author_name", an); ("author_email", ae)]
              (universal_newlines c)
       = Ok manifest
    /\ create_additional_files env self pp t pn
         (World (<[locate env (joinpath pp "pyproject.toml") := File manifest]> fs2)
                (stdout w1) (spawned w1 ++ [["uv"; "init"; path_str pp]]))
       = (w3, Ok tt)
    /\ files w' = files w3.
Proof.
  unfold create_project_try. intros E.
  destruct (run_process ["uv"; "init"; path_str pp] (files w1)) as [fs2 r] eqn:Hrun.
  apply bind_Ok_inv in E as ([] & w2 & Hsub & E).
  rewrite (subprocess_run_check_eq _ _ _ _ Hrun) in Hsub.
  assert (r = Exited 0) as -> by (destruct r as [[| |]|]; congruence).
  injection Hsub as <-.
  apply bind_Ok_inv in E as (found & w2' & Hex & E).
  unfold path_exists in Hex. injection Hex as <- <-.
  destruct (bool_decide _) in E; cbn [negb] in E.
  2:{ exfalso. revert E.
      do 4 (let E := fresh in
            intros E; apply bind_Ok_inv in E as (? & ? & _ & E); revert E).
      unfold ret. congruence. }
  apply bind_Ok_inv in E as (c & w2' & Hread & E).
  apply read_text_Ok_inv in Hread as (-> & c0 & Hread & ->). cbn [files] in Hread.
  rename c0 into c.
  apply bind_Ok_inv in E as (manifest & w2' & Hfmt & E).
  unfold lift in Hfmt. injection Hfmt as <- Hfmt.
  apply bind_Ok_inv in E as ([] & w3 & Hwrite & E).
  apply write_text_Ok_inv in Hwrite as [-> _].
  apply bind_Ok_inv in E as ([] & w4 & Hcaf & E).
  exists fs2, c, manifest, w4. repeat split; try assumption.
  revert E. unfold bind, print, ret. cbn. now intros [= <-].
Qed.

(** Every outcome of the [try] block when the bootstrap command leaves
    the project directory in place. *)
Lemma try_outcome (w1 : world) (fs2 : gmap (list string) node) (r : proc_result) :
  run_process ["uv"; "init"; path_str pp] (files w1) = (fs2, r) ->
  fs2 !! locate env pp = Some Dir ->
  locate env pp <> [] ->
  exists w' res,
    create_project_try env self pp pn t an ae w1 = (w', res)
    /\ match res with
       | Ok true => True
       | Ok false => files w' = remove_tree (locate env pp) fs2
       | Raise e => files w' !! locate env pp = Some Dir
       end.
Proof.
  intros Hrun Hd Hk.
  assert (r = Exited 0 \/ r <> Exited 0) as [->|Hr]
    by (destruct r as [[| |]|]; (now left) || (right; congruence)).
  2:{ eexists _, _. split; [now apply (try_bootstrap_failed _ _ _ Hrun)|]. exact Hd. }
  destruct (lookup_node fs2 (locate env (template_path self t))) as [nd|] eqn:Ht.
  2:{ eexists _, _. split; [now apply (try_template_missing _ _ Hrun)|]. reflexivity. }
  unfold create_project_try.
  erewrite bind_Ok by (rewrite (subprocess_run_check_eq _ _ _ _ Hrun); reflexivity).
  erewrite bind_Ok by (apply (path_exists_eq _ _ _ (Some nd)); exact Ht).
  cbn [negb].
  match goal with |- context [bind (read_text env ?p) ?k] =>
    set (tail := bind (read_text env p) k) end.
  assert (dirs_stay tail) as Hstay.
  { subst tail.
    apply dirs_stay_bind; [apply dirs_stay_pure; intros; now rewrite read_text_world|].
    intros c. apply dirs_stay_bind; [now apply dirs_stay_pure|].
    intros m. apply dirs_stay_bind; [apply dirs_stay_write_text|].
    intros _. apply dirs_stay_bind; [apply dirs_stay_create_additional_files|].
    intros _. do 5 (apply dirs_stay_bind; [now apply dirs_stay_pure|]; intros _).
    now apply dirs_stay_pure. }
  assert (returns (fun b => b = true) tail) as Hret.
  { subst tail. do 9 (apply returns_bind; intros ?). now apply returns_ret. }
  specialize (Hstay (World fs2 (stdout w1) (spawned w1 ++ [["uv"; "init"; path_str pp]]))
                    (locate env pp) Hd).
  specialize (Hret (World fs2 (stdout w1) (spawned w1 ++ [["uv"; "init"; path_str pp]]))).
  destruct (tail _) as [w' [b|e]]; cbn [fst snd] in *.
  - exists w', (Ok b). split; [reflexivity|]. now rewrite (Hret b eq_refl).
  - exists w', (Raise e). split; [reflexivity | exact Hstay].
Qed.
End create_project_facts.

Section create_project_run.
Context `{Runtime}.
Variable env : environ.
Variable self : UVCreateTemplate.
Variables (pn t : string) (td an ae : option string).

(** With the target absent, [create_project] makes the directory and
    runs the [try] block under its handlers. *)
Lemma create_project_start (w : world) :
  lookup_node (files w) (project_key env pn td) = None ->
  blocked (files w) (project_key env pn td) = false ->
  create_project env self pn t td an ae w
  = try_except
      (create_project_try env self (target_path env pn td) pn t
         (default_author_name env an)
         (default_author_email (default_author_name env an) ae))
      (create_project_handler env (target_path env pn td))
      (set_files (make_dirs (project_key env pn td) (files w)) w).
Proof.
  unfold project_key. intros Hk Hb. unfold create_project. cbv zeta.
  erewrite bind_Ok by (apply (path_exists_eq _ _ _ None); exact Hk).
  cbn iota. unfold bind at 1. unfold mkdir_parents. now rewrite Hk, Hb.
Qed.

Lemma create_project_success_inv (w w' : world) :
  create_project env self pn t td an ae w = (w', Ok true) ->
  lookup_node (files w) (project_key env pn td) = None
  /\ create_project_try env self (target_path env pn td) pn t
       (default_author_name env an)
       (default_author_email (default_author_name env an) ae)
       (set_files (make_dirs (project_key env pn td) (files w)) w)
     = (w', Ok true).
Proof.
  unfold project_key, create_project. cbv zeta. intros E.
  apply bind_Ok_inv in E as (present & w0 & Hex & E).
  unfold path_exists in Hex. injection Hex as <- <-.
  destruct (lookup_node (files w) (locate env (target_path env pn td))) as [nd|] eqn:Hk.
  { exfalso. revert E. rewrite bool_decide_eq_true_2 by eauto.
    unfold bind, print, ret. cbn. congruence. }
  split; [reflexivity|].
  rewrite bool_decide_eq_false_2 in E by (intros [? ?]; discriminate).
  apply bind_Ok_inv in E as ([] & w1 & Hmk & E).
  unfold mkdir_parents in Hmk. rewrite Hk in Hmk.
  destruct (blocked _ _); [discriminate|]. injection Hmk as <-.
  unfold try_except in E.
  destruct (create_project_try _ _ _ _ _ _ _ _) as [wb [b|e]] eqn:Hb.
  - now injection E as <- <-.
  - pose proof (create_project_handler_false env (target_path env pn td) e wb true) as Hf.
    rewrite E in Hf. discriminate (Hf eq_refl).
Qed.
End create_project_run.

(** ** Listing the template store *)

Lemma elem_of_listdir (fs : gmap (list string) node) (k : list string) (f : string) :
  f ∈ listdir fs k <-> is_Some (fs !! (k ++ [f])%list).
Proof.
  unfold listdir. rewrite list_elem_of_omap. split.
  - intros ([q nd] & Hin & E). apply elem_of_map_to_list in Hin. cbn [fst] in E.
    destruct (last q) as [name|]; [|discriminate].
    destruct (bool_decide_reflect (q = (k ++ [name])%list)) as [->|]; [|discriminate].
    injection E as <-. eauto.
  - intros [nd E]. exists ((k ++ [f])%list, nd). split.
    + now apply elem_of_map_to_list.
    + cbn [fst]. rewrite last_snoc. now rewrite bool_decide_eq_true_2.
Qed.

(** The names [list_templates] reports are the stems of the [.toml]
    entries directly inside the template directory. *)
Lemma list_templates_spec `{Runtime} (env : environ) (self : UVCreateTemplate) (w : world) :
  exists names,
    list_templates env self w = (w, Ok names)
    /\ forall n, n ∈ names <->
         exists f, is_Some (files w !! (locate env (template_dir self) ++ [f])%list)
                   /\ ends_with ".toml" f = true /\ stem f = n.
Proof.
  eexists. split; [reflexivity|]. intros n.
  rewrite list_elem_of_In, List.in_map_iff. split.
  - intros (f & <- & Hin). apply List.filter_In in Hin as [Hin Hf].
    exists f. repeat split; [|exact Hf]. now apply elem_of_listdir, list_elem_of_In.
  - intros (f & Hin & Hf & <-). exists f. split; [reflexivity|].
    apply List.filter_In. split; [|exact Hf]. now apply list_elem_of_In, elem_of_listdir.
Qed.

(** ** Project creation: existing target, missing template, rollback *)

Section project_creation.
Context `{Runtime}.
Variable env : environ.
Variable self : UVCreateTemplate.

(** C2. When the target path already exists, [create_project] reports the
    already-exists error and returns failure; the file system is the one
    it started from, no command has been spawned, and nothing else is
    printed. *)
Theorem create_project_existing_target
    (pn t : string) (td an ae : option string) (w : world) :
  is_Some (lookup_node (files w) (project_key env pn td)) ->
  create_project env self pn t td an ae w
  = (World (files w)
           (stdout w ++ [MsgDirectoryExists (path_str (target_path env pn td))])
           (spawned w),
     Ok false).
Proof.
  unfold project_key. intros [nd Hk]. unfold create_project. cbv zeta.
  erewrite bind_Ok by (apply (path_exists_eq _ _ _ (Some nd)); exact Hk).
  reflexivity.
Qed.

(** C3. When the target is absent, the bootstrap command succeeds and
    leaves the project directory in place, and the named template has no
    file in the store, [create_project] reports template-not-found
    followed by the names [list_templates] finds at that moment, removes
    the project directory with everything below it, and returns failure. *)
Theorem create_project_template_not_found
    (pn t : string) (td an ae : option string) (w : world)
    (fs2 : gmap (list string) node) :
  lookup_node (files w) (project_key env pn td) = None ->
  blocked (files w) (project_key env pn td) = false ->
  bootstrap env pn td (files w) = (fs2, Exited 0) ->
  fs2 !! project_key env pn td = Some Dir ->
  lookup_node fs2 (locate env (template_path self t)) = None ->
  exists names w',
    create_project env self pn t td an ae w = (w', Ok false)
    /\ list_templates env self
         (World fs2 (stdout w) (spawned w ++ [bootstrap_argv env pn td]))
       = (World fs2 (stdout w) (spawned w ++ [bootstrap_argv env pn td]), Ok names)
    /\ (forall n, n ∈ names <->
          exists f, is_Some (fs2 !! (locate env (template_dir self) ++ [f])%list)
                    /\ ends_with ".toml" f = true /\ stem f = n)
    /\ stdout w' = (stdout w ++ [MsgTemplateNotFound t;
                                 MsgAvailableTemplates (join ", " names)])%list
    /\ files w' = remove_tree (project_key env pn td) fs2
    /\ forall q, project_key env pn td `prefix_of` q -> files w' !! q = None.
Proof.
  intros Hk Hb Hrun Hd Ht.
  destruct (list_templates_spec env self
              (World fs2 (stdout w) (spawned w ++ [bootstrap_argv env pn td])))
    as (names & Hl & Hnames).
  exists names. eexists. rewrite (create_project_start _ _ _ _ _ _ _ _ Hk Hb).
  unfold try_except.
  apply lookup_node_None in Hk as [Hk _].
  unfold bootstrap, bootstrap_argv, project_key in *.
  erewrite try_template_missing; eauto.
  split; [reflexivity|]. split; [exact Hl|]. split; [exact Hnames|].
  cbn [files stdout spawned set_files].
  injection Hl as <-.
  repeat split. intros q Hq. now apply remove_tree_under.
Qed.

(** C7. When the target is absent and the bootstrap command, however it
    ends, leaves the project directory in place, [create_project] never
    raises; whenever it returns failure nothing is left at or below the
    target path; and a non-zero exit status of the command gives failure
    with the bootstrap error message, as does a command that could not be
    spawned. *)
Theorem create_project_rollback
    (pn t : string) (td an ae : option string) (w : world)
    (fs2 : gmap (list string) node) (r : proc_result) :
  lookup_node (files w) (project_key env pn td) = None ->
  blocked (files w) (project_key env pn td) = false ->
  bootstrap env pn td (files w) = (fs2, r) ->
  fs2 !! project_key env pn td = Some Dir ->
  exists w' b,
    create_project env self pn t td an ae w = (w', Ok b)
    /\ (b = false -> forall q, project_key env pn td `prefix_of` q -> files w' !! q = None)
    /\ (forall code, r = Exited code -> code <> 0%Z ->
          b = false
          /\ files w' = remove_tree (project_key env pn td) fs2
          /\ stdout w' = (stdout w ++ [MsgUvInitError (CalledProcessError code)])%list)
    /\ (forall e, r = SpawnFailed e ->
          b = false /\ files w' = remove_tree (project_key env pn td) fs2).
Proof.
  intros Hk Hb Hrun Hd.
  rewrite (create_project_start _ _ _ _ _ _ _ _ Hk Hb).
  apply lookup_node_None in Hk as [Hk _].
  unfold bootstrap, bootstrap_argv, project_key in *.
  unfold try_except.
  assert (r = Exited 0 \/ r <> Exited 0) as [->|Hr]
    by (destruct r as [[| |]|]; (now left) || (right; congruence)).
  - destruct (try_outcome env self (target_path env pn td) pn t
                (default_author_name env an)
                (default_author_email (default_author_name env an) ae)
                (set_files (make_dirs (locate env (target_path env pn td)) (files w)) w)
                fs2 (Exited 0) Hrun Hd Hk) as (wb & res & -> & Hres).
    destruct res as [[|]|e].
    + exists wb, true. repeat split; congruence.
    + exists wb, false. split; [reflexivity|]. split.
      * intros _ q Hq. rewrite Hres. now apply remove_tree_under.
      * split; congruence.
    + rewrite (create_project_handler_removes _ _ _ _ Hres Hk).
      eexists _, false. split; [reflexivity|]. split.
      * intros _ q Hq. now apply remove_tree_under.
      * split; congruence.
  - rewrite (try_bootstrap_failed env self (target_path env pn td) pn t
               (default_author_name env an)
               (default_author_email (default_author_name env an) ae)
               (set_files (make_dirs (locate env (target_path env pn td)) (files w)) w)
               fs2 r Hrun Hr).
    rewrite (create_project_handler_removes env (target_path env pn td) _
               (World fs2 _ _) Hd Hk).
    eexists _, false. split; [reflexivity|]. split.
    + intros _ q Hq. now apply remove_tree_under.
    + split.
      * intros code -> Hc. repeat split.
      * intros e ->. repeat split.
Qed.
End project_creation.

(** ** What [create_additional_files] touches *)

Section additional_files_facts.
Context `{Runtime}.
Variable env : environ.
Variable self : UVCreateTemplate.

Lemma footprint_create_additional_files (pp : Path) (t pn : string) :
  footprint (fun q => last q = Some "main.py" \/ last q = Some "cli.py"
                      \/ last q = Some ".pre-commit-config.yaml")
            (create_additional_files env self pp t pn).
Proof.
  unfold create_additional_files.
  apply footprint_bind.
  { destruct (String.eqb t "web"); [|destruct (String.eqb t "cli")].
    - apply footprint_write_text. left.
      rewrite locate_joinpath by reflexivity. apply last_snoc.
    - apply footprint_write_text. right; left.
      rewrite locate_joinpath by reflexivity. apply last_snoc.
    - now apply footprint_pure. }
  intros _. apply footprint_bind; [|intros; now apply footprint_pure].
  eapply footprint_weaken; [|apply footprint_copy_pre_commit_config]. auto.
Qed.

End additional_files_facts.

Section rendering.
Context `{Runtime}.
Variable env : environ.
Variable self : UVCreateTemplate.


(** C4, as amended. A template body without any brace character renders
    to itself. *)
Theorem format_brace_free_identity (kwargs : list (string * string)) (body : string) :
  brace_free body = true -> format kwargs body = Ok body.
Proof.
  unfold format, brace_free. cbn [build_string].
  induction body as [|c body IH]; [reflexivity|].
  cbn [all_chars scan step]. intros Hb. apply andb_prop in Hb as [Hc Hb].
  rewrite (IH Hb). unfold is_brace in Hc.
  destruct (Ascii.eqb c "{"), (Ascii.eqb c "}"); cbn in Hc |- *;
    try discriminate; reflexivity.
Qed.

(** C5. When [create_project] succeeds with the template [basic] and the
    store holds the canonical body, the manifest is that body with the
    project name, the author name and the author email in place; an author
    name that was not supplied is the value of [USER] (or the fallback
    text when [USER] is unset), and an author email that was not supplied
    is the author name in lower case with spaces turned into dots,
    followed by the example domain. *)
Theorem create_project_default_author
    (pn : string) (td an ae : option string) (w w' : world) :
  lookup_node (bootstrap env pn td (files w)).1 (locate env (template_path self "basic"))
  = Some (File get_basic_template) ->
  create_project env self pn "basic" td an ae w = (w', Ok true) ->
  files w' !! locate env (joinpath (target_path env pn td) "pyproject.toml")
  = Some (File (basic_manifest pn
      (match an with
       | Some (String c s) => String c s
       | _ => match USER env with Some user => user | None => "Your Name" end
       end)
      (match ae with
       | Some (String c s) => String c s
       | _ => replace_char " " "."
                (lower (match an with
                        | Some (String c s) => String c s
                        | _ => match USER env with Some user => user | None => "Your Name" end
                        end))
              +:+ "@example.com"
       end))).
Proof.
  intros Htpl E.
  apply create_project_success_inv in E as [Hk E].
  apply try_success_inv in E as (fs2 & c & manifest & w3 & Hrun & Hc & Hfmt & Hcaf & ->).
  unfold bootstrap, bootstrap_argv, project_key in *.
  cbn [files set_files] in Hrun. rewrite Hrun in Htpl. cbn [fst] in Htpl.
  rewrite Hc in Htpl. injection Htpl as ->.
  rewrite universal_newlines_basic, format_basic in Hfmt. injection Hfmt as <-.
  match type of Hcaf with
  | _ ?W = _ =>
      pose proof (footprint_create_additional_files env self
                    (target_path env pn td) "basic" pn W) as Hf
  end.
  rewrite Hcaf in Hf. cbn [fst files] in Hf.
  rewrite Hf.
  - rewrite lookup_insert_eq. reflexivity.
  - rewrite locate_joinpath by reflexivity. rewrite last_snoc.
    intros [E|[E|E]]; discriminate E.
Qed.


(** C9, as amended. An empty author name or author email is handled
    exactly like a missing one; the email used is then never empty, and
    the author name used is empty only when [USER] is set to the empty
    string. *)
Theorem empty_author_is_omitted (pn t : string) (td an ae : option string) :
  create_project env self pn t td (Some "") ae = create_project env self pn t td None ae
  /\ create_project env self pn t td an (Some "") = create_project env self pn t td an None
  /\ default_author_email (default_author_name env an) (Some "") <> ""
  /\ (default_author_name env (Some "") = "" <-> USER env = Some "").
Proof.
  split; [reflexivity|]. split; [reflexivity|]. split.
  - cbn [default_author_email].
    destruct (replace_char " " "." (lower (default_author_name env an))); discriminate.
  - cbn [default_author_name]. unfold getenv_USER.
    destruct (USER env) as [user|]; split; intros E; try congruence; discriminate.
Qed.
End rendering.

(** ** Template reset *)

Lemma dict_get_None (d : list (string * string)) (k : string) :
  k ∉ List.map fst d -> dict_get d k = None.
Proof.
  induction d as [|[k' v] d IH]; [reflexivity|].
  cbn [List.map fst dict_get]. intros Hk. apply not_elem_of_cons in Hk as [Hne Hk].
  destruct (String.eqb_spec k' k) as [->|_]; [congruence | now apply IH].
Qed.

Lemma snoc_ne {A} (l : list A) (x : A) : (l ++ [x])%list <> l.
Proof.
  intros E. apply (f_equal length) in E. rewrite length_app in E. cbn in E. lia.
Qed.

Section template_reset.
Context `{Runtime}.
Variable env : environ.
Variable self : UVCreateTemplate.

Lemma dirs_stay_for_each {A} (l : list A) (body : A -> M unit) :
  (forall a, dirs_stay (body a)) -> dirs_stay (for_each l body).
Proof.
  intros Hb. induction l as [|a l IH]; cbn [for_each].
  - now apply dirs_stay_pure.
  - apply dirs_stay_bind; [apply Hb | intros _; exact IH].
Qed.

(** The constructor leaves the store directory in place. *)
Lemma init_store_directory (dir : option string) (w w' : world)
      (obj : UVCreateTemplate) :
  init env dir w = (w', Ok obj) ->
  lookup_node (files w') (locate env (template_dir obj)) = Some Dir.
Proof.
  unfold init. intros E.
  apply bind_Ok_inv in E as ([] & w1 & He & E). injection E as <- <-.
  unfold ensure_template_dir in He.
  apply bind_Ok_inv in He as ([] & w0 & Hm & He).
  match type of Hm with
  | mkdir_exist_ok env ?p w = _ => set (k := locate env p) in *; fold k
  end.
  assert (lookup_node (files w0) k = Some Dir) as Hd.
  { revert Hm. unfold mkdir_exist_ok. fold k.
    destruct (lookup_node (files w) k) as [[x|]|] eqn:Hk; [discriminate | |].
    - now intros [= <-].
    - destruct (lookup_node (files w) (removelast k)) as [[y|]|]; try discriminate.
      intros [= <-]. cbn [files set_files].
      destruct k; [reflexivity | apply lookup_insert_eq]. }
  destruct k as [|a k]; [reflexivity|]. cbn [lookup_node] in Hd |- *.
  match type of He with
  | for_each ?l ?body w0 = _ =>
      pose proof (dirs_stay_for_each l body) as Hs
  end.
  match type of Hs with
  | ?P -> _ => assert P as Hb
  end.
  { intros entry. apply dirs_stay_bind; [now apply dirs_stay_pure|].
    intros [|]; [now apply dirs_stay_pure | apply dirs_stay_write_text]. }
  specialize (Hs Hb w0 (a :: k) Hd). now rewrite He in Hs.
Qed.

Lemma template_path_key (name : string) :
  Path_of (name +:+ ".toml") = MkPath "" [name +:+ ".toml"] ->
  locate env (template_path self name)
  = (locate env (template_dir self) ++ [name +:+ ".toml"])%list.
Proof. intros E. unfold template_path. now apply locate_joinpath. Qed.

(** A store whose directory exists and whose file for [name] is not a
    directory accepts a write of that template, and stays such a store. *)
Lemma write_template (name c : string) (w : world) :
  Path_of (name +:+ ".toml") = MkPath "" [name +:+ ".toml"] ->
  lookup_node (files w) (locate env (template_dir self)) = Some Dir ->
  lookup_node (files w) (locate env (template_path self name)) <> Some Dir ->
  write_text env (template_path self name) c w
  = (set_files (<[locate env (template_path self name) := File c]> (files w)) w, Ok tt)
  /\ lookup_node (<[locate env (template_path self name) := File c]> (files w))
                 (locate env (template_dir self)) = Some Dir
  /\ lookup_node (<[locate env (template_path self name) := File c]> (files w))
                 (locate env (template_path self name)) = Some (File c).
Proof.
  intros Hp Hd Hf. unfold write_text.
  rewrite (template_path_key _ Hp) in *.
  rewrite removelast_last, Hd.
  split; [|split].
  - destruct (lookup_node (files w)
                (locate env (template_dir self) ++ [name +:+ ".toml"])%list)
      as [[x|]|]; first [reflexivity | congruence].
  - destruct (locate env (template_dir self)) as [|a k] eqn:Hk; [reflexivity|].
    cbn [lookup_node] in Hd |- *. rewrite lookup_insert_ne; [exact Hd|].
    apply snoc_ne.
  - rewrite lookup_node_nonempty by (now destruct (locate env (template_dir self))).
    apply lookup_insert_eq.
Qed.

Lemma write_templates (name : string) (writes : list string) :
  Path_of (name +:+ ".toml") = MkPath "" [name +:+ ".toml"] ->
  forall w,
    lookup_node (files w) (locate env (template_dir self)) = Some Dir ->
    lookup_node (files w) (locate env (template_path self name)) <> Some Dir ->
    exists w1,
      for_each writes (create_custom_template env self name) w = (w1, Ok tt)
      /\ lookup_node (files w1) (locate env (template_dir self)) = Some Dir
      /\ lookup_node (files w1) (locate env (template_path self name)) <> Some Dir.
Proof.
  intros Hp. induction writes as [|c writes IH]; intros w Hd Hf.
  - exists w. now repeat split.
  - destruct (write_template name c w Hp Hd Hf) as (Hw & Hd1 & Hf1).
    cbn [for_each]. unfold create_custom_template.
    erewrite bind_Ok; cycle 1.
    { erewrite bind_Ok by exact Hw. reflexivity. }
    apply IH; unfold set_files; cbn [files]; [exact Hd1 | rewrite Hf1; discriminate].
Qed.

Lemma reset_named_known (name body : string) (w : world) :
  Path_of (name +:+ ".toml") = MkPath "" [name +:+ ".toml"] ->
  dict_get default_templates name = Some body ->
  lookup_node (files w) (locate env (template_dir self)) = Some Dir ->
  lookup_node (files w) (locate env (template_path self name)) <> Some Dir ->
  exists w1,
    reset_named env self name w = (w1, Ok tt)
    /\ lookup_node (files w1) (locate env (template_path self name)) = Some (File body).
Proof.
  intros Hp Hg Hd Hf. unfold reset_named. rewrite Hg.
  destruct (write_template name body w Hp Hd Hf) as (Hw & _ & Hf1).
  erewrite bind_Ok by exact Hw. eexists. split; [reflexivity | exact Hf1].
Qed.

Lemma reset_unknown (name : string) (w : world) :
  name <> "all" ->
  name ∉ List.map fst default_templates ->
  reset_default_template env self name w
  = (World (files w) (stdout w ++ [MsgResetUnknown name]) (spawned w), Ok tt).
Proof.
  intros Hall Hn. unfold reset_default_template.
  destruct (String.eqb_spec name "all") as [->|_]; [congruence|].
  unfold reset_named. now rewrite (dict_get_None _ _ Hn).
Qed.

(** C6. In a store whose directory exists and whose file for a built-in
    name is not itself a directory, whatever bodies have been written
    under that name, resetting the name and reading it back gives the
    canonical body, and so does resetting [all]; resetting a name that is
    neither built in nor [all] only prints the unknown-template error. *)
Theorem reset_restores_canonical
    (name body : string) (writes : list string) (w : world) :
  (name, body) ∈ default_templates ->
  lookup_node (files w) (locate env (template_dir self)) = Some Dir ->
  lookup_node (files w) (locate env (template_path self name)) <> Some Dir ->
  (exists w',
     (exec for_each writes (create_custom_template env self name);
      exec reset_default_template env self name;
      read_text env (template_path self name)) w
     = (w', Ok body))
  /\ (exists w',
        (exec for_each writes (create_custom_template env self name);
         exec reset_default_template env self "all";
         read_text env (template_path self name)) w
        = (w', Ok body))
  /\ (forall other w0,
        other <> "all" ->
        other ∉ List.map fst default_templates ->
        reset_default_template env self other w0
        = (World (files w0) (stdout w0 ++ [MsgResetUnknown other]) (spawned w0), Ok tt)).
Proof.
  intros Hin Hd Hf. unfold default_templates in Hin.
  apply list_elem_of_singleton in Hin. injection Hin as -> ->.
  assert (Path_of ("basic" +:+ ".toml") = MkPath "" ["basic" +:+ ".toml"]) as Hp
    by reflexivity.
  destruct (write_templates "basic" writes Hp w Hd Hf) as (w1 & Hw & Hd1 & Hf1).
  destruct (reset_named_known "basic" get_basic_template w1 Hp eq_refl Hd1 Hf1)
    as (w2 & Hr & Hb).
  split; [|split].
  - erewrite bind_Ok by exact Hw.
    erewrite bind_Ok by (unfold reset_default_template; cbn; exact Hr).
    exists w2. unfold read_text. now rewrite Hb, universal_newlines_basic.
  - erewrite bind_Ok by exact Hw.
    erewrite bind_Ok; cycle 1.
    { unfold reset_default_template, default_templates.
      cbn [String.eqb Ascii.eqb Bool.eqb List.map fst for_each].
      erewrite bind_Ok; cycle 1.
      { erewrite bind_Ok by exact Hr. reflexivity. }
      reflexivity. }
    eexists. unfold read_text, print. cbn [files].
    now rewrite Hb, universal_newlines_basic.
  - intros other w0. apply reset_unknown.
Qed.

(** C10. A reset asked for a name that is neither built in nor [all]
    leaves every file of the world, and so the whole template store, as
    it was: nothing is created, overwritten or deleted, no command is
    spawned, and the templates listed afterwards are those listed before. *)
Theorem reset_unknown_leaves_store (name : string) (w : world) :
  name <> "all" ->
  name ∉ List.map fst default_templates ->
  files (reset_default_template env self name w).1 = files w
  /\ spawned (reset_default_template env self name w).1 = spawned w
  /\ (reset_default_template env self name w).2 = Ok tt
  /\ (list_templates env self (reset_default_template env self name w).1).2
     = (list_templates env self w).2.
Proof.
  intros Hall Hn. rewrite (reset_unknown name w Hall Hn). now repeat split.
Qed.
End template_reset.

(** ** Concrete runs *)

(** A pair is determined by its first component and the value of its
    second; used to name the world a concrete run ends in without
    unfolding it. *)
Lemma pair_eta {A B} (p : A * B) (b : B) : p.2 = b -> p = (p.1, b).
Proof. destruct p as [a b']. cbn. now intros ->. Qed.


(** C4, as stated, fails: a body with none of the three recognized markers
    is still changed by rendering when it holds doubled braces, and is
    refused when it holds an inline table. *)
Lemma doubled_braces_not_verbatim :
  contains (marker "project_name") "extras = {{}}" = false
  /\ contains (marker "author_name") "extras = {{}}" = false
  /\ contains (marker "author_email") "extras = {{}}" = false
  /\ @format uv_ok
       [("project_name", "site"); ("author_name", "Ada Lovelace");
        ("author_email", "ada.lovelace@example.com")]
       "extras = {{}}"
     = Ok "extras = {}"
  /\ "extras = {}" <> "extras = {{}}"
  /\ @format uv_ok
       [("project_name", "site"); ("author_name", "Ada Lovelace");
        ("author_email", "ada.lovelace@example.com")]
       "pin = { version = 1 }"
     = Raise (KeyError " version = 1 ").
Proof.
  split; [vm_compute; reflexivity|]. split; [vm_compute; reflexivity|].
  split; [vm_compute; reflexivity|]. split; [vm_compute; reflexivity|].
  split; [discriminate | vm_compute; reflexivity].
Qed.

(** C9, as stated, fails: with [USER] set to the empty string, an author
    name passed as the empty string gives a manifest whose author name is
    empty. *)
Lemma empty_author_reaches_manifest :
  USER (demo_env (Some "")) = Some ""
  /\ (@create_project (demo_runtime 0) (demo_env (Some "")) demo_self
        "demo" "basic" None (Some "") (Some "") demo_world).2 = Ok true
  /\ files (@create_project (demo_runtime 0) (demo_env (Some "")) demo_self
              "demo" "basic" None (Some "") (Some "") demo_world).1
       !! ["home"; "ada"; "work"; "demo"; "pyproject.toml"]
     = Some (File (basic_manifest "demo" "" "@example.com")).
Proof. repeat split; vm_compute; reflexivity. Qed.

Lemma create_project_existing_target_witness :
  is_Some (lookup_node demo_files (project_key ada "old" None))
  /\ @create_project uv_ok ada demo_self "old" "basic" None None None demo_world
     = (World demo_files [MsgDirectoryExists "/home/ada/work/old"] [], Ok false).
Proof.
  assert (is_Some (lookup_node (files demo_world) (project_key ada "old" None))) as H1
    by (exists Dir; vm_compute; reflexivity).
  split; [exact H1|].
  exact (@create_project_existing_target uv_ok ada demo_self
           "old" "basic" None None None demo_world H1).
Defined.

Lemma create_project_template_not_found_witness :
  lookup_node demo_files (project_key ada "x" None) = None
  /\ blocked demo_files (project_key ada "x" None) = false
  /\ (@bootstrap uv_ok ada "x" None demo_files).2 = Exited 0
  /\ (@create_project uv_ok ada demo_self
        "x" "missing-template" None None None demo_world).2 = Ok false.
Proof.
  assert (lookup_node (files demo_world) (project_key ada "x" None) = None) as H1
    by (vm_compute; reflexivity).
  assert (blocked (files demo_world) (project_key ada "x" None) = false) as H2
    by (vm_compute; reflexivity).
  assert ((@bootstrap uv_ok ada "x" None (files demo_world)).2 = Exited 0) as H3
    by (vm_compute; reflexivity).
  assert ((@bootstrap uv_ok ada "x" None (files demo_world)).1 !! project_key ada "x" None
          = Some Dir) as H4
    by (vm_compute; reflexivity).
  assert (lookup_node (@bootstrap uv_ok ada "x" None (files demo_world)).1
            (locate ada (template_path demo_self "missing-template")) = None) as H5
    by (vm_compute; reflexivity).
  destruct (@create_project_template_not_found uv_ok ada demo_self
              "x" "missing-template" None None None demo_world _
              H1 H2 (pair_eta _ _ H3) H4 H5)
    as (names & w' & Hc & _).
  split; [exact H1|]. split; [exact H2|]. split; [exact H3|].
  rewrite Hc. reflexivity.
Defined.

Lemma create_project_rollback_witness :
  lookup_node demo_files (project_key ada "site" None) = None
  /\ blocked demo_files (project_key ada "site" None) = false
  /\ (@bootstrap uv_exit_3 ada "site" None demo_files).2 = Exited 3
  /\ (@create_project uv_exit_3 ada demo_self
        "site" "basic" None None None demo_world).2 = Ok false.
Proof.
  assert (lookup_node (files demo_world) (project_key ada "site" None) = None) as H1
    by (vm_compute; reflexivity).
  assert (blocked (files demo_world) (project_key ada "site" None) = false) as H2
    by (vm_compute; reflexivity).
  assert ((@bootstrap uv_exit_3 ada "site" None (files demo_world)).2 = Exited 3) as H3
    by (vm_compute; reflexivity).
  assert ((@bootstrap uv_exit_3 ada "site" None (files demo_world)).1
            !! project_key ada "site" None = Some Dir) as H4
    by (vm_compute; reflexivity).
  destruct (@create_project_rollback uv_exit_3 ada demo_self
              "site" "basic" None None None demo_world _ _
              H1 H2 (pair_eta _ _ H3) H4)
    as (w' & b & Hc & _ & Hcode & _).
  destruct (Hcode 3%Z eq_refl) as (-> & _); [discriminate|].
  split; [exact H1|]. split; [exact H2|]. split; [exact H3|].
  rewrite Hc. reflexivity.
Defined.


Lemma format_brace_free_identity_witness :
  brace_free "version = 1" = true
  /\ @format uv_ok [("project_name", "site")] "version = 1" = Ok "version = 1".
Proof.
  assert (brace_free "version = 1" = true) as H1 by (vm_compute; reflexivity).
  split; [exact H1|].
  exact (@format_brace_free_identity uv_ok [("project_name", "site")] "version = 1" H1).
Defined.

Lemma create_project_default_author_witness :
  (@create_project uv_ok ada demo_self "demo" "basic" None None None demo_world).2 = Ok true
  /\ files (@create_project uv_ok ada demo_self
              "demo" "basic" None None None demo_world).1
       !! locate ada (joinpath (target_path ada "demo" None) "pyproject.toml")
     = Some (File (basic_manifest "demo" "Ada Lovelace" "ada.lovelace@example.com")).
Proof.
  assert (lookup_node (@bootstrap uv_ok ada "demo" None (files demo_world)).1
            (locate ada (template_path demo_self "basic"))
          = Some (File get_basic_template)) as H1
    by (vm_compute; reflexivity).
  assert ((@create_project uv_ok ada demo_self
             "demo" "basic" None None None demo_world).2 = Ok true) as H2
    by (vm_compute; reflexivity).
  split; [exact H2|].
  exact (@create_project_default_author uv_ok ada demo_self
           "demo" None None None demo_world _ H1 (pair_eta _ _ H2)).
Defined.

Lemma reset_restores_canonical_witness :
  ("basic", get_basic_template) ∈ default_templates
  /\ lookup_node demo_files (locate ada (template_dir demo_self)) = Some Dir
  /\ exists w',
       (exec for_each ["x = 1"; "y = {z}"]
               (create_custom_template ada demo_self "basic");
        exec reset_default_template ada demo_self "basic";
        read_text ada (template_path demo_self "basic")) demo_world
       = (w', Ok get_basic_template).
Proof.
  assert (("basic", get_basic_template) ∈ default_templates) as H1
    by (apply list_elem_of_singleton; reflexivity).
  assert (lookup_node (files demo_world) (locate ada (template_dir demo_self)) = Some Dir)
    as H2 by (vm_compute; reflexivity).
  assert (lookup_node (files demo_world) (locate ada (template_path demo_self "basic"))
          <> Some Dir) as H3
    by (vm_compute; discriminate).
  split; [exact H1|]. split; [exact H2|].
  exact (proj1 (reset_restores_canonical ada demo_self
                  "basic" get_basic_template ["x = 1"; "y = {z}"] demo_world H1 H2 H3)).
Defined.


Lemma reset_unknown_leaves_store_witness :
  "ghost" <> "all"
  /\ ("ghost" ∉ List.map fst default_templates)
  /\ files (reset_default_template ada demo_self "ghost" demo_world).1
     = files demo_world.
Proof.
  assert ("ghost" <> "all") as H1 by discriminate.
  assert ("ghost" ∉ List.map fst default_templates) as H2
    by (apply (bool_decide_unpack _); vm_compute; exact I).
  split; [exact H1|]. split; [exact H2|].
  exact (proj1 (reset_unknown_leaves_store ada demo_self "ghost" demo_world H1 H2)).
Defined.

(** * Further properties of the template store *)

(** ** Names of template files *)

Lemma length_append (a b : string) :
  String.length (a +:+ b) = String.length a + String.length b.
Proof.
  induction a as [|x a IH]; [reflexivity|].
  rewrite append_cons. cbn [String.length]. now rewrite IH.
Qed.

Lemma append_inj_l (a b c : string) : a +:+ c = b +:+ c -> a = b.
Proof.
  revert b. induction a as [|x a IH]; intros [|y b] E.
  - reflexivity.
  - apply (f_equal String.length) in E. rewrite append_nil_l, length_append in E.
    cbn [String.length] in E. lia.
  - apply (f_equal String.length) in E. rewrite append_nil_l, length_append in E.
    cbn [String.length] in E. lia.
  - rewrite !append_cons in E. injection E as -> E. now rewrite (IH _ E).
Qed.

Lemma all_chars_append (P : ascii -> bool) (a b : string) :
  all_chars P (a +:+ b) = all_chars P a && all_chars P b.
Proof.
  induction a as [|x a IH]; [reflexivity|].
  rewrite append_cons. cbn [all_chars]. rewrite IH. now rewrite andb_assoc.
Qed.

Lemma split_slash_free (s : string) :
  slash_free s = true -> forall cur, split_slash cur s = [cur +:+ s].
Proof.
  unfold slash_free. induction s as [|c s IH]; intros Hs cur.
  - cbn [split_slash]. now rewrite append_nil_r.
  - cbn [all_chars] in Hs. apply andb_prop in Hs as [Hc Hs].
    cbn [split_slash]. destruct (Ascii.eqb c "/"); [discriminate|].
    rewrite (IH Hs). now rewrite snoc_append.
Qed.

Lemma parse_anchor_relative (c : ascii) (s : string) :
  Ascii.eqb c "/" = false -> parse_anchor (String c s) = "".
Proof.
  destruct c as [[] [] [] [] [] [] [] []]; intros E; try reflexivity; discriminate E.
Qed.

(** A slash-free name other than the empty one and the dot is a path of
    one component. *)
Lemma Path_of_component (s : string) :
  slash_free s = true -> s <> "" -> s <> "." -> Path_of s = MkPath "" [s].
Proof.
  intros Hs He Hd. unfold Path_of.
  rewrite (split_slash_free s Hs), append_nil_l.
  destruct s as [|c s]; [congruence|].
  unfold slash_free in Hs. cbn [all_chars] in Hs. apply andb_prop in Hs as [Hc _].
  rewrite parse_anchor_relative by (now destruct (Ascii.eqb c "/")).
  cbn [List.filter]. unfold is_component.
  apply String.eqb_neq in He, Hd. now rewrite He, Hd.
Qed.

Lemma Path_of_toml (name : string) :
  slash_free name = true ->
  Path_of (name +:+ ".toml") = MkPath "" [name +:+ ".toml"].
Proof.
  intros Hs. apply Path_of_component.
  - unfold slash_free in *. now rewrite all_chars_append, Hs.
  - intros E. apply (f_equal String.length) in E. rewrite length_append in E.
    cbn in E. lia.
  - intros E. apply (f_equal String.length) in E. rewrite length_append in E.
    cbn in E. lia.
Qed.

Lemma rfind_dot_toml (name : string) (i : nat) :
  rfind_dot (name +:+ ".toml") i = Some (i + String.length name).
Proof.
  revert i. induction name as [|c name IH]; intros i.
  - rewrite append_nil_l. cbn. f_equal. lia.
  - rewrite append_cons. cbn [rfind_dot String.length]. rewrite IH. f_equal. lia.
Qed.

Lemma substring_prefix (a b : string) :
  String.substring 0 (String.length a) (a +:+ b) = a.
Proof.
  induction a as [|x a IH].
  - rewrite append_nil_l. now destruct b.
  - rewrite append_cons. cbn [String.length String.substring]. now rewrite IH.
Qed.

Lemma substring_suffix (a b : string) :
  String.substring (String.length a) (String.length b) (a +:+ b) = b.
Proof.
  induction a as [|x a IH].
  - rewrite append_nil_l. cbn [String.length].
    rewrite <- (append_nil_r b) at 2. apply substring_prefix.
  - rewrite append_cons. cbn [String.length String.substring]. exact IH.
Qed.

(** The stem of [name.toml] is [name], for every non-empty name. *)
Lemma stem_toml (name : string) : name <> "" -> stem (name +:+ ".toml") = name.
Proof.
  intros He. unfold stem. rewrite rfind_dot_toml. cbn [Nat.add].
  rewrite length_append. cbn [String.length].
  destruct name as [|c name]; [congruence|]. cbn [String.length].
  replace (0 <? S (String.length name))%nat with true
    by (symmetry; apply Nat.ltb_lt; lia).
  replace (S (String.length name) <? S (String.length name) + 5 - 1)%nat with true
    by (symmetry; apply Nat.ltb_lt; lia).
  cbn [andb]. apply (substring_prefix (String c name)).
Qed.

Lemma ends_with_toml (name : string) : ends_with ".toml" (name +:+ ".toml") = true.
Proof.
  unfold ends_with. rewrite length_append. cbn [String.length].
  replace (5 <=? String.length name + 5)%nat with true
    by (symmetry; apply Nat.leb_le; lia).
  replace (String.length name + 5 - 5) with (String.length name) by lia.
  pose proof (substring_suffix name ".toml") as E. cbn [String.length] in E.
  rewrite E. reflexivity.
Qed.

(** ** Writing, showing and listing templates *)

Section store_properties.
Context `{Runtime}.
Variable env : environ.
Variable self : UVCreateTemplate.

Lemma create_custom_template_inv (name content : string) (w w' : world) :
  create_custom_template env self name content w = (w', Ok tt) ->
  locate env (template_path self name) <> []
  /\ w' = World (<[locate env (template_path self name) := File content]> (files w))
                (stdout w ++ [MsgCustomTemplate name]) (spawned w).
Proof.
  unfold create_custom_template. intros E.
  apply bind_Ok_inv in E as ([] & w1 & Hw & E).
  apply write_text_Ok_inv in Hw as [-> Hnd].
  injection E as <-. split; [|reflexivity].
  intros Hk. apply Hnd. now rewrite Hk.
Qed.

(** X1. A template that [create_custom_template] has written is shown back
    as text mode reads it: [show_template] prints the header, the rule and
    the content that was written with each carriage return, and the line
    feed that may follow it, as one line feed; content without a carriage
    return is printed exactly as it was written. *)
Theorem custom_template_round_trip (name content : string) (w w' : world) :
  create_custom_template env self name content w = (w', Ok tt) ->
  show_template env self name w'
  = (World (files w')
           (stdout w' ++ [MsgShowHeader name; MsgShowRule;
                          MsgShowContent (universal_newlines content)])
           (spawned w'),
     Ok tt)
  /\ (cr_free content = true ->
      show_template env self name w'
      = (World (files w')
               (stdout w' ++ [MsgShowHeader name; MsgShowRule; MsgShowContent content])
               (spawned w'),
         Ok tt)).
Proof.
  intros E. apply create_custom_template_inv in E as [Hk ->].
  assert (lookup_node
            (<[locate env (template_path self name) := File content]> (files w))
            (locate env (template_path self name)) = Some (File content)) as Hl.
  { rewrite lookup_node_nonempty by exact Hk. apply lookup_insert_eq. }
  assert (show_template env self name
            (World (<[locate env (template_path self name) := File content]> (files w))
                   (stdout w ++ [MsgCustomTemplate name]) (spawned w))
          = (World (<[locate env (template_path self name) := File content]> (files w))
                   ((stdout w ++ [MsgCustomTemplate name])
                    ++ [MsgShowHeader name; MsgShowRule;
                        MsgShowContent (universal_newlines content)])
                   (spawned w),
             Ok tt)) as Hshow.
  { unfold show_template.
    erewrite bind_Ok by (apply (path_exists_eq _ _ _ (Some (File content))); exact Hl).
    cbn [negb]. unfold bind at 1. unfold read_text. cbn [files]. rewrite Hl.
    unfold bind, print. cbn [files stdout spawned]. now rewrite <- !app_assoc. }
  split; [exact Hshow|].
  intros Hcr. rewrite Hshow. now rewrite (universal_newlines_cr_free _ Hcr).
Qed.

(** X2. A template written under a non-empty name without a path separator
    is among the names [list_templates] reports afterwards. *)
Theorem custom_template_listed (name content : string) (w w' : world) :
  slash_free name = true ->
  name <> "" ->
  create_custom_template env self name content w = (w', Ok tt) ->
  exists names, list_templates env self w' = (w', Ok names) /\ name ∈ names.
Proof.
  intros Hs He E. apply create_custom_template_inv in E as [_ ->].
  destruct (list_templates_spec env self
              (World (<[locate env (template_path self name) := File content]> (files w))
                     (stdout w ++ [MsgCustomTemplate name]) (spawned w)))
    as (names & Hl & Hn).
  exists names. split; [exact Hl|]. apply Hn. exists (name +:+ ".toml").
  split; [|split; [apply ends_with_toml | now apply stem_toml]].
  cbn [files]. rewrite <- (template_path_key env self name (Path_of_toml name Hs)).
  rewrite lookup_insert_eq. eauto.
Qed.

(** X3. Writing one template leaves the file of every other template as it
    was, for names without a path separator. *)
Theorem custom_template_isolated (name other content : string) (w : world) :
  slash_free name = true ->
  slash_free other = true ->
  name <> other ->
  files (create_custom_template env self name content w).1
    !! locate env (template_path self other)
  = files w !! locate env (template_path self other).
Proof.
  intros Hn Ho Hne. unfold create_custom_template, bind.
  pose proof (write_text_files env (template_path self name) content w) as Hw.
  destruct (write_text env (template_path self name) content w) as [w1 [[]|e]];
    cbn [fst files print] in *.
  - destruct Hw as [->|[-> _]]; [reflexivity|].
    apply lookup_insert_ne.
    rewrite (template_path_key env self name (Path_of_toml name Hn)).
    rewrite (template_path_key env self other (Path_of_toml other Ho)).
    intros E. apply app_inv_head in E. injection E as E.
    now apply append_inj_l in E.
  - destruct Hw as [->|[-> _]]; [reflexivity|].
    apply lookup_insert_ne.
    rewrite (template_path_key env self name (Path_of_toml name Hn)).
    rewrite (template_path_key env self other (Path_of_toml other Ho)).
    intros E. apply app_inv_head in E. injection E as E.
    now apply append_inj_l in E.
Qed.

(** X4. [show_template] only reads: whether it prints the template, reports
    it missing or raises on an unreadable entry, the files and the list of
    spawned commands are those it started from. *)
Theorem show_template_read_only (name : string) (w : world) :
  files (show_template env self name w).1 = files w
  /\ spawned (show_template env self name w).1 = spawned w.
Proof.
  unfold show_template, bind, path_exists, read_text, print.
  destruct (bool_decide _); cbn [negb fst files spawned].
  - destruct (lookup_node (files w) (locate env (template_path self name))) as [[c|]|];
      now split.
  - now split.
Qed.

Lemma footprint_reset_named (name : string) :
  footprint (fun q => q = locate env (template_path self "basic"))
            (reset_named env self name).
Proof.
  unfold reset_named, default_templates. cbn [dict_get].
  destruct (String.eqb_spec "basic" name) as [<-|_].
  - apply footprint_bind; [now apply footprint_write_text|].
    intros _. now apply footprint_pure.
  - now apply footprint_pure.
Qed.

(** X5. A reset, of one name or of [all], changes no entry other than the
    file of the built-in template: custom templates are never touched. *)
Theorem reset_touches_only_defaults (name : string) (w : world) (q : list string) :
  q <> locate env (template_path self "basic") ->
  files (reset_default_template env self name w).1 !! q = files w !! q.
Proof.
  intros Hq.
  assert (footprint (fun q => q = locate env (template_path self "basic"))
                    (reset_default_template env self name)) as Hf.
  { unfold reset_default_template. destruct (String.eqb name "all").
    - apply footprint_bind; [|intros _; now apply footprint_pure].
      unfold default_templates. cbn [List.map fst for_each].
      apply footprint_bind; [apply footprint_reset_named|].
      intros _. now apply footprint_pure.
    - apply footprint_reset_named. }
  now apply Hf.
Qed.
End store_properties.

(** ** The constructor and the seeding of the store *)

Section constructor_properties.
Context `{Runtime}.
Variable env : environ.

Lemma adds_only_bind {A B} (m : M A) (f : A -> M B) :
  adds_only m -> (forall a, adds_only (f a)) -> adds_only (bind m f).
Proof.
  intros Hm Hf w q Hq. specialize (Hm w q Hq). unfold bind.
  destruct (m w) as [w1 [a|e]]; cbn [fst] in *; [|exact Hm].
  rewrite Hf by (now rewrite Hm). exact Hm.
Qed.

Lemma adds_only_pure {A} (m : M A) :
  (forall w, files (m w).1 = files w) -> adds_only m.
Proof. intros E w q _. now rewrite E. Qed.

Lemma adds_only_mkdir_exist_ok (p : Path) : adds_only (mkdir_exist_ok env p).
Proof.
  intros w q Hq. unfold mkdir_exist_ok.
  destruct (lookup_node (files w) (locate env p)) as [[x|]|] eqn:Hk; try reflexivity.
  destruct (lookup_node (files w) (removelast (locate env p))) as [[y|]|]; try reflexivity.
  cbn [fst files set_files]. apply lookup_insert_ne. intros <-.
  apply lookup_node_None in Hk as [_ Hk]. rewrite Hk in Hq. now destruct Hq.
Qed.

(** Writing a file only when nothing is there adds an entry at most. *)
Lemma adds_only_seed (p : Path) (c : string) :
  adds_only (do present <- path_exists env p;
             if present : bool then ret tt else write_text env p c).
Proof.
  intros w q Hq. unfold bind, path_exists.
  destruct (lookup_node (files w) (locate env p)) as [nd|] eqn:Hk.
  - rewrite bool_decide_eq_true_2 by eauto. reflexivity.
  - rewrite bool_decide_eq_false_2 by (intros [? ?]; discriminate).
    destruct (write_text_files env p c w) as [->|[-> _]]; [reflexivity|].
    apply lookup_insert_ne. intros <-.
    apply lookup_node_None in Hk as [_ Hk]. rewrite Hk in Hq. now destruct Hq.
Qed.

(** X6. [ensure_template_dir] never overwrites: every entry present before
    it runs, a template the user has changed included, is the same after
    it, whether it succeeds or raises. *)
Theorem ensure_template_dir_keeps_entries
    (self : UVCreateTemplate) (w : world) (q : list string) :
  is_Some (files w !! q) ->
  files (ensure_template_dir env self w).1 !! q = files w !! q.
Proof.
  revert w q. change (adds_only (ensure_template_dir env self)).
  unfold ensure_template_dir.
  apply adds_only_bind; [apply adds_only_mkdir_exist_ok|]. intros _.
  unfold default_templates. cbn [for_each].
  apply adds_only_bind; [apply adds_only_seed|]. intros _.
  now apply adds_only_pure.
Qed.

Lemma store_path_key (dir : option string) :
  locate env (template_path (Self (store_path env dir)) "basic")
  = (locate env (store_path env dir) ++ ["basic.toml"])%list.
Proof. now apply (template_path_key env (Self (store_path env dir)) "basic"). Qed.

(** What a successful constructor call went through: the directory step,
    then the seeding step. *)
Lemma init_inv (dir : option string) (w w' : world) (obj : UVCreateTemplate) :
  init env dir w = (w', Ok obj) ->
  obj = Self (store_path env dir)
  /\ exists w0,
       mkdir_exist_ok env (store_path env dir) w = (w0, Ok tt)
       /\ lookup_node (files w0) (locate env (store_path env dir)) = Some Dir
       /\ (do present <- path_exists env (template_path (Self (store_path env dir)) "basic");
           if present : bool then ret tt
           else write_text env (template_path (Self (store_path env dir)) "basic")
                           get_basic_template) w0
          = (w', Ok tt).
Proof.
  unfold init. fold (store_path env dir). intros E.
  apply bind_Ok_inv in E as ([] & w1 & He & E). injection E as <- <-.
  split; [reflexivity|].
  unfold ensure_template_dir in He. cbn [template_dir] in He.
  apply bind_Ok_inv in He as ([] & w0 & Hm & He).
  exists w0. split; [exact Hm|]. split.
  - revert Hm. unfold mkdir_exist_ok.
    destruct (lookup_node (files w) (locate env (store_path env dir))) as [[x|]|] eqn:Hk;
      [discriminate | now intros [= <-] |].
    destruct (lookup_node (files w) (removelast (locate env (store_path env dir))))
      as [[y|]|]; try discriminate.
    intros [= <-]. cbn [files set_files].
    apply lookup_node_None in Hk as [Hk _].
    rewrite lookup_node_nonempty by exact Hk. apply lookup_insert_eq.
  - unfold default_templates in He. cbn [for_each fst snd] in He.
    apply bind_Ok_inv in He as ([] & w2 & Hs & He). injection He as <-. exact Hs.
Qed.

(** X7. After a successful constructor call, a built-in template that had
    no file before reads back as its canonical body. *)
Theorem init_seeds_default (dir : option string) (w w' : world) (obj : UVCreateTemplate) :
  init env dir w = (w', Ok obj) ->
  lookup_node (files w) (locate env (template_path obj "basic")) = None ->
  read_text env (template_path obj "basic") w' = (w', Ok get_basic_template).
Proof.
  intros E Hn. apply init_inv in E as (-> & w0 & Hm & _ & Hs).
  assert (lookup_node (files w0)
            (locate env (template_path (Self (store_path env dir)) "basic")) = None) as Hn0.
  { apply lookup_node_None in Hn as [Hk Hn].
    rewrite lookup_node_nonempty by exact Hk.
    revert Hm. unfold mkdir_exist_ok.
    destruct (lookup_node (files w) (locate env (store_path env dir))) as [[x|]|];
      [discriminate | now intros [= <-] |].
    destruct (lookup_node (files w) (removelast (locate env (store_path env dir))))
      as [[y|]|]; try discriminate.
    intros [= <-]. cbn [files set_files]. rewrite lookup_insert_ne; [exact Hn|].
    rewrite store_path_key. intros E. symmetry in E. now apply snoc_ne in E. }
  apply bind_Ok_inv in Hs as (present & w1 & Hp & Hs).
  unfold path_exists in Hp. injection Hp as <- <-. rewrite Hn0 in Hs.
  rewrite bool_decide_eq_false_2 in Hs by (intros [? ?]; discriminate).
  apply write_text_Ok_inv in Hs as [-> _].
  unfold read_text. cbn [files set_files].
  apply lookup_node_None in Hn0 as [Hk _].
  rewrite lookup_node_nonempty by exact Hk. now rewrite lookup_insert_eq.
Qed.

(** X8. After a successful constructor call the built-in template is always
    among the names [list_templates] reports. *)
Theorem init_lists_basic (dir : option string) (w w' : world) (obj : UVCreateTemplate) :
  init env dir w = (w', Ok obj) ->
  exists names, list_templates env obj w' = (w', Ok names) /\ "basic" ∈ names.
Proof.
  intros E. apply init_inv in E as (-> & w0 & _ & _ & Hs).
  destruct (list_templates_spec env (Self (store_path env dir)) w') as (names & Hl & Hn).
  exists names. split; [exact Hl|]. apply Hn. exists "basic.toml".
  split; [|split; reflexivity].
  cbn [template_dir]. rewrite <- store_path_key.
  apply bind_Ok_inv in Hs as (present & w1 & Hp & Hs).
  unfold path_exists in Hp. injection Hp as <- <-.
  destruct (lookup_node (files w0)
              (locate env (template_path (Self (store_path env dir)) "basic")))
    as [nd|] eqn:Hk.
  - rewrite bool_decide_eq_true_2 in Hs by eauto. injection Hs as <-.
    rewrite store_path_key in Hk |- *.
    rewrite lookup_node_nonempty in Hk by (now destruct (locate env (store_path env dir))).
    eauto.
  - rewrite bool_decide_eq_false_2 in Hs by (intros [? ?]; discriminate).
    apply write_text_Ok_inv in Hs as [-> _]. cbn [files set_files].
    rewrite lookup_insert_eq. eauto.
Qed.

(** X9. The constructor succeeds exactly when the store directory is there
    already, or is absent with an existing directory as its parent; in any
    other case (a regular file in its place, a missing parent) it raises. *)
Theorem init_succeeds_iff (dir : option string) (w : world) :
  (exists w' obj, init env dir w = (w', Ok obj))
  <-> lookup_node (files w) (locate env (store_path env dir)) = Some Dir
      \/ (lookup_node (files w) (locate env (store_path env dir)) = None
          /\ lookup_node (files w) (removelast (locate env (store_path env dir))) = Some Dir).
Proof.
  split.
  - intros (w' & obj & E). apply init_inv in E as (_ & w0 & Hm & _ & _).
    revert Hm. unfold mkdir_exist_ok.
    destruct (lookup_node (files w) (locate env (store_path env dir))) as [[x|]|];
      [discriminate | now left |].
    destruct (lookup_node (files w) (removelast (locate env (store_path env dir))))
      as [[y|]|]; try discriminate. now right.
  - intros Hc.
    assert (exists w0, mkdir_exist_ok env (store_path env dir) w = (w0, Ok tt)
                       /\ lookup_node (files w0) (locate env (store_path env dir)) = Some Dir)
      as (w0 & Hm & Hd).
    { unfold mkdir_exist_ok. destruct Hc as [Hd|[Hn Hp]].
      - rewrite Hd. eauto.
      - rewrite Hn, Hp. eexists. split; [reflexivity|]. cbn [files set_files].
        apply lookup_node_None in Hn as [Hk _].
        rewrite lookup_node_nonempty by exact Hk. apply lookup_insert_eq. }
    unfold init. fold (store_path env dir). unfold ensure_template_dir.
    cbn [template_dir]. unfold default_templates. cbn [for_each fst snd].
    assert (exists w1,
              (do present <- path_exists env (template_path (Self (store_path env dir)) "basic");
               if present : bool then ret tt
               else write_text env (template_path (Self (store_path env dir)) "basic")
                               get_basic_template) w0
              = (w1, Ok tt)) as (w1 & Hs).
    { unfold bind, path_exists.
      destruct (lookup_node (files w0)
                  (locate env (template_path (Self (store_path env dir)) "basic")))
        as [nd|] eqn:Hk.
      - rewrite bool_decide_eq_true_2 by eauto. eexists. reflexivity.
      - rewrite bool_decide_eq_false_2 by (intros [? ?]; discriminate).
        unfold write_text. rewrite Hk. rewrite store_path_key, removelast_last, Hd.
        eexists. reflexivity. }
    exists w1, (Self (store_path env dir)).
    rewrite (bind_Ok _ _ w w1 tt); [reflexivity|].
    rewrite (bind_Ok _ _ w w0 tt Hm).
    now rewrite (bind_Ok _ _ w0 w1 tt Hs).
Qed.
End constructor_properties.

(** * Further properties of project creation *)

(** ** Spawned commands *)

Lemma quiet_bind {A B} (m : M A) (f : A -> M B) :
  quiet m -> (forall a, quiet (f a)) -> quiet (bind m f).
Proof.
  intros Hm Hf w. specialize (Hm w). unfold bind.
  destruct (m w) as [w1 [a|e]]; cbn [fst] in *; [|exact Hm].
  now rewrite Hf.
Qed.

Lemma quiet_pure {A} (m : M A) :
  (forall w, spawned (m w).1 = spawned w) -> quiet m.
Proof. intros E. exact E. Qed.

Section spawn_facts.
Context `{Runtime}.
Variable env : environ.

Lemma quiet_write_text (p : Path) (c : string) : quiet (write_text env p c).
Proof. intros w. unfold write_text. repeat case_match; reflexivity. Qed.

Lemma quiet_read_text (p : Path) : quiet (read_text env p).
Proof. intros w. now rewrite read_text_world. Qed.

Lemma quiet_read_bytes (p : Path) : quiet (read_bytes env p).
Proof. intros w. now rewrite read_bytes_world. Qed.

Lemma quiet_rmtree (p : Path) : quiet (rmtree env p).
Proof. intros w. unfold rmtree. repeat case_match; reflexivity. Qed.

Lemma quiet_mkdir_parents (p : Path) : quiet (mkdir_parents env p).
Proof. intros w. unfold mkdir_parents. repeat case_match; reflexivity. Qed.

Lemma quiet_shutil_copy (src dst : Path) : quiet (shutil_copy env src dst).
Proof.
  intros w. unfold shutil_copy. case_match; [reflexivity|].
  apply quiet_bind; [apply quiet_read_bytes | intros; apply quiet_write_text].
Qed.

Lemma quiet_create_additional_files (self : UVCreateTemplate) (pp : Path) (t pn : string) :
  quiet (create_additional_files env self pp t pn).
Proof.
  unfold create_additional_files. apply quiet_bind.
  { repeat case_match; try apply quiet_write_text. now apply quiet_pure. }
  intros _. apply quiet_bind; [|intros; now apply quiet_pure].
  unfold copy_pre_commit_config.
  apply quiet_bind; [now apply quiet_pure|]. intros [|].
  - apply quiet_bind; [apply quiet_shutil_copy | intros; now apply quiet_pure].
  - apply quiet_bind; [now apply quiet_pure | intros; apply quiet_write_text].
Qed.

Lemma quiet_create_project_handler (pp : Path) (e : exn) :
  quiet (create_project_handler env pp e).
Proof.
  unfold create_project_handler.
  apply quiet_bind; [now apply quiet_pure|]. intros _.
  apply quiet_bind; [now apply quiet_pure|]. intros [|].
  - apply quiet_bind; [apply quiet_rmtree | intros; now apply quiet_pure].
  - apply quiet_bind; [now apply quiet_pure | intros; now apply quiet_pure].
Qed.

(** The [try] block spawns the bootstrap command and nothing else,
    however it ends. *)
Lemma create_project_try_spawned
      (self : UVCreateTemplate) (pp : Path) (pn t an ae : string) (w1 : world) :
  spawned (create_project_try env self pp pn t an ae w1).1
  = (spawned w1 ++ [["uv"; "init"; path_str pp]])%list.
Proof.
  unfold create_project_try.
  destruct (run_process ["uv"; "init"; path_str pp] (files w1)) as [fs2 r] eqn:Hrun.
  unfold bind at 1. rewrite (subprocess_run_check_eq _ _ _ _ Hrun).
  destruct r as [[| |]|]; try reflexivity.
  match goal with
  | |- spawned (?m ?W).1 = _ => assert (quiet m) as Hq
  end.
  { apply quiet_bind; [now apply quiet_pure|]. intros [|]; cbn [negb].
    - apply quiet_bind; [apply quiet_read_text|]. intros c.
      apply quiet_bind; [now apply quiet_pure|]. intros m.
      apply quiet_bind; [apply quiet_write_text|]. intros _.
      apply quiet_bind; [apply quiet_create_additional_files|]. intros _.
      do 5 (apply quiet_bind; [now apply quiet_pure|]; intros _).
      now apply quiet_pure.
    - apply quiet_bind; [now apply quiet_pure|]. intros _.
      apply quiet_bind; [now apply quiet_pure|]. intros names.
      apply quiet_bind; [now apply quiet_pure|]. intros _.
      apply quiet_bind; [apply quiet_rmtree | intros; now apply quiet_pure]. }
  now rewrite Hq.
Qed.

(** X10. Whatever its arguments and the state of the world, [create_project]
    spawns at most one process, the bootstrap command for the target path:
    the list of spawned commands is unchanged or longer by that one
    command line. *)
Theorem create_project_spawns_only_bootstrap
    (self : UVCreateTemplate) (pn t : string) (td an ae : option string) (w : world) :
  spawned (create_project env self pn t td an ae w).1 = spawned w
  \/ spawned (create_project env self pn t td an ae w).1
     = (spawned w ++ [bootstrap_argv env pn td])%list.
Proof.
  remember (create_project env self pn t td an ae w) as res eqn:E.
  unfold create_project in E. cbv zeta in E. unfold bind at 1 in E.
  unfold path_exists in E.
  destruct (bool_decide _) in E; [subst res; now left|].
  unfold bind at 1 in E.
  pose proof (quiet_mkdir_parents (target_path env pn td) w) as Hm.
  destruct (mkdir_parents env (target_path env pn td) w) as [w1 [[]|e]]; cbn [fst] in Hm.
  2:{ subst res. now left. }
  right. unfold try_except in E. unfold bootstrap_argv. rewrite <- Hm.
  pose proof (create_project_try_spawned self (target_path env pn td) pn t
                (default_author_name env an)
                (default_author_email (default_author_name env an) ae) w1) as Ht.
  destruct (create_project_try _ _ _ _ _ _ _ _) as [wb [b|e]]; cbn [fst] in Ht; subst res.
  - exact Ht.
  - now rewrite quiet_create_project_handler.
Qed.

(** X11. A target path that does not exist but lies below a regular file
    makes [create_project] raise: the directory cannot be made, the
    exception is not caught, nothing is printed, changed or spawned. *)
Theorem create_project_blocked_target
    (self : UVCreateTemplate) (pn t : string) (td an ae : option string) (w : world) :
  lookup_node (files w) (project_key env pn td) = None ->
  blocked (files w) (project_key env pn td) = true ->
  create_project env self pn t td an ae w = (w, Raise NotADirectoryError).
Proof.
  unfold project_key. intros Hk Hb. unfold create_project. cbv zeta.
  erewrite bind_Ok by (apply (path_exists_eq _ _ _ None); exact Hk).
  cbn iota. apply bind_Raise. unfold mkdir_parents. now rewrite Hk, Hb.
Qed.

(** X12. Every successful [create_project] leaves as manifest the rendering
    of the named template, as the store held it once the bootstrap command
    had run and as text mode reads it (each carriage return, with the line
    feed that may follow it, as one line feed), with the project name and
    the effective author name and email as the three values; the bootstrap
    command had exit status 0. *)
Theorem create_project_manifest_rendered
    (self : UVCreateTemplate) (pn t : string) (td an ae : option string) (w w' : world) :
  create_project env self pn t td an ae w = (w', Ok true) ->
  (bootstrap env pn td (files w)).2 = Exited 0
  /\ exists content manifest,
       lookup_node (bootstrap env pn td (files w)).1 (locate env (template_path self t))
       = Some (File content)
       /\ format [("project_name", pn);
                  ("author_name", default_author_name env an);
                  ("author_email", default_author_email (default_author_name env an) ae)]
                 (universal_newlines content)
          = Ok manifest
       /\ files w' !! locate env (joinpath (target_path env pn td) "pyproject.toml")
          = Some (File manifest).
Proof.
  intros E.
  apply create_project_success_inv in E as [Hk E].
  apply try_success_inv in E as (fs2 & c & manifest & w3 & Hrun & Hc & Hfmt & Hcaf & ->).
  unfold bootstrap, bootstrap_argv, project_key in *.
  cbn [files set_files] in Hrun. rewrite Hrun. cbn [fst snd].
  split; [reflexivity|]. exists c, manifest. split; [exact Hc|]. split; [exact Hfmt|].
  match type of Hcaf with
  | _ ?W = _ =>
      pose proof (footprint_create_additional_files env self
                    (target_path env pn td) t pn W) as Hf
  end.
  rewrite Hcaf in Hf. cbn [fst files] in Hf. rewrite Hf.
  - apply lookup_insert_eq.
  - rewrite locate_joinpath by reflexivity. rewrite last_snoc.
    intros [E|[E|E]]; discriminate E.
Qed.
End spawn_facts.

(** ** What a run changes outside the project directory *)

Section confinement.
Context `{Runtime}.
Variable env : environ.
Variable self : UVCreateTemplate.

Lemma under_joinpath (pp : Path) (s : string) :
  Path_of s = MkPath "" [s] ->
  locate env pp `prefix_of` locate env (joinpath pp s).
Proof. intros Hs. rewrite (locate_joinpath _ _ _ Hs). now exists [s]. Qed.

Lemma footprint_copy_pre_commit_under (pp : Path) :
  footprint (fun q => locate env pp `prefix_of` q) (copy_pre_commit_config env pp).
Proof.
  unfold copy_pre_commit_config.
  apply footprint_bind; [now apply footprint_pure|]. intros [|].
  - apply footprint_bind; [|intros; now apply footprint_pure].
    apply footprint_shutil_copy.
    + now apply under_joinpath.
    + rewrite basename_joinpath by reflexivity.
      rewrite !locate_joinpath by reflexivity.
      exists [".pre-commit-config.yaml"; ".pre-commit-config.yaml"].
      now rewrite <- app_assoc.
  - apply footprint_bind; [now apply footprint_pure|]. intros _.
    apply footprint_write_text. now apply under_joinpath.
Qed.

Lemma footprint_create_additional_files_under (pp : Path) (t pn : string) :
  starter_file t = None \/ Path_of pn = MkPath "" [pn] ->
  footprint (fun q => locate env pp `prefix_of` q)
            (create_additional_files env self pp t pn).
Proof.
  intros Hc. unfold create_additional_files.
  apply footprint_bind.
  { unfold starter_file in Hc.
    destruct (String.eqb t "web"); [|destruct (String.eqb t "cli")].
    - destruct Hc as [Hc|Hc]; [discriminate|].
      apply footprint_write_text.
      rewrite (locate_joinpath _ _ "main.py") by reflexivity.
      rewrite (locate_joinpath _ _ pn) by exact Hc.
      rewrite (locate_joinpath _ _ "src") by reflexivity.
      exists ["src"; pn; "main.py"]. now rewrite <- !app_assoc.
    - destruct Hc as [Hc|Hc]; [discriminate|].
      apply footprint_write_text.
      rewrite (locate_joinpath _ _ "cli.py") by reflexivity.
      rewrite (locate_joinpath _ _ pn) by exact Hc.
      rewrite (locate_joinpath _ _ "src") by reflexivity.
      exists ["src"; pn; "cli.py"]. now rewrite <- !app_assoc.
    - now apply footprint_pure. }
  intros _. apply footprint_bind; [|intros; now apply footprint_pure].
  apply footprint_copy_pre_commit_under.
Qed.

(** Outside the project directory the [try] block leaves what the
    bootstrap command left. *)
Lemma try_outside (pp : Path) (pn t an ae : string) (w1 : world)
      (fs2 : gmap (list string) node) (r : proc_result) (q : list string) :
  starter_file t = None \/ Path_of pn = MkPath "" [pn] ->
  run_process ["uv"; "init"; path_str pp] (files w1) = (fs2, r) ->
  fs2 !! locate env pp = Some Dir ->
  locate env pp <> [] ->
  ~ locate env pp `prefix_of` q ->
  files (create_project_try env self pp pn t an ae w1).1 !! q = fs2 !! q.
Proof.
  intros Hc Hrun Hd Hk Hq.
  assert (r = Exited 0 \/ r <> Exited 0) as [->|Hr]
    by (destruct r as [[| |]|]; (now left) || (right; congruence)).
  2:{ now rewrite (try_bootstrap_failed env self pp pn t an ae w1 fs2 r Hrun Hr). }
  destruct (lookup_node fs2 (locate env (template_path self t))) as [nd|] eqn:Ht.
  2:{ rewrite (try_template_missing env self pp pn t an ae w1 fs2 Hrun Ht Hd Hk).
      cbn [fst files]. now apply remove_tree_outside. }
  unfold create_project_try.
  erewrite bind_Ok by (rewrite (subprocess_run_check_eq _ _ _ _ Hrun); reflexivity).
  erewrite bind_Ok by (apply (path_exists_eq _ _ _ (Some nd)); exact Ht).
  cbn [negb].
  match goal with
  | |- files (?m ?W).1 !! _ = _ =>
      assert (footprint (fun q => locate env pp `prefix_of` q) m) as Hf
  end.
  { apply footprint_bind; [apply footprint_pure; intros; now rewrite read_text_world|].
    intros c. apply footprint_bind; [now apply footprint_pure|].
    intros m. apply footprint_bind.
    { apply footprint_write_text. now apply under_joinpath. }
    intros _. apply footprint_bind.
    { now apply footprint_create_additional_files_under. }
    intros _. do 5 (apply footprint_bind; [now apply footprint_pure|]; intros _).
    now apply footprint_pure. }
  now rewrite Hf.
Qed.

(** X13. For a template without a starter module, or a project name that is
    a single path component, a run with the target absent and the project
    directory left in place by the bootstrap command changes nothing outside
    the project directory beyond what that command left; and when the run
    fails, the file system is exactly what the command left with the
    project directory taken out. *)
Theorem create_project_confined
    (pn t : string) (td an ae : option string) (w : world)
    (fs2 : gmap (list string) node) (r : proc_result) :
  starter_file t = None \/ Path_of pn = MkPath "" [pn] ->
  lookup_node (files w) (project_key env pn td) = None ->
  blocked (files w) (project_key env pn td) = false ->
  bootstrap env pn td (files w) = (fs2, r) ->
  fs2 !! project_key env pn td = Some Dir ->
  (forall q, ~ project_key env pn td `prefix_of` q ->
             files (create_project env self pn t td an ae w).1 !! q = fs2 !! q)
  /\ ((create_project env self pn t td an ae w).2 = Ok false ->
      files (create_project env self pn t td an ae w).1
      = remove_tree (project_key env pn td) fs2).
Proof.
  intros Hc Hk Hb Hrun Hd.
  rewrite (create_project_start _ _ _ _ _ _ _ _ Hk Hb).
  apply lookup_node_None in Hk as [Hk _].
  unfold bootstrap, bootstrap_argv, project_key in *. unfold try_except.
  pose proof (fun q => try_outside (target_path env pn td) pn t
                (default_author_name env an)
                (default_author_email (default_author_name env an) ae)
                (set_files (make_dirs (locate env (target_path env pn td)) (files w)) w)
                fs2 r q Hc Hrun Hd Hk) as Hout.
  destruct (try_outcome env self (target_path env pn td) pn t
              (default_author_name env an)
              (default_author_email (default_author_name env an) ae)
              (set_files (make_dirs (locate env (target_path env pn td)) (files w)) w)
              fs2 r Hrun Hd Hk) as (wb & res & E & Hres).
  rewrite E in Hout |- *. cbn [fst] in Hout.
  destruct res as [[|]|e]; cbn [fst snd].
  - split; [exact Hout | discriminate].
  - split; [exact Hout | now intros _].
  - rewrite (create_project_handler_removes _ _ _ _ Hres Hk). cbn [fst snd files].
    split.
    + intros q Hq. rewrite remove_tree_outside by exact Hq. now apply Hout.
    + intros _. apply map_eq. intros q.
      destruct (decide (locate env (target_path env pn td) `prefix_of` q)) as [Hq|Hq].
      * now rewrite !remove_tree_under.
      * rewrite !remove_tree_outside by exact Hq. now apply Hout.
Qed.
End confinement.

(** ** The pre-commit configuration of a new project *)

Section pre_commit.
Context `{Runtime}.
Variable env : environ.
Variable self : UVCreateTemplate.

Lemma last_joinpath (pp : Path) (s : string) :
  Path_of s = MkPath "" [s] -> last (locate env (joinpath pp s)) = Some s.
Proof. intros Hs. rewrite (locate_joinpath _ _ _ Hs). apply last_snoc. Qed.

Lemma lookup_node_last (fs : gmap (list string) node) (k : list string) (s : string) :
  last k = Some s -> lookup_node fs k = fs !! k.
Proof. intros Hl. apply lookup_node_nonempty. now intros ->. Qed.

(** The block that writes the pre-commit configuration, run to success:
    what ends up at the destination. *)
Lemma copy_pre_commit_config_result (pp : Path) (w1 w2 : world) :
  copy_pre_commit_config env pp w1 = (w2, Ok tt) ->
  (lookup_node (files w1)
     (locate env (joinpath (parent (Path_of (script_file env))) ".pre-commit-config.yaml"))
   = None ->
   files w2 !! locate env (joinpath pp ".pre-commit-config.yaml")
   = Some (File pre_commit_content))
  /\ (forall c,
        lookup_node (files w1)
          (locate env (joinpath (parent (Path_of (script_file env)))
                                ".pre-commit-config.yaml"))
        = Some (File c) ->
        files w1 !! locate env (joinpath pp ".pre-commit-config.yaml") <> Some Dir ->
        files w2 !! locate env (joinpath pp ".pre-commit-config.yaml") = Some (File c)).
Proof.
  unfold copy_pre_commit_config. intros E.
  apply bind_Ok_inv in E as (present & w0 & Hp & E).
  unfold path_exists in Hp. injection Hp as <- <-.
  split.
  - intros Hn. rewrite Hn in E.
    rewrite bool_decide_eq_false_2 in E by (intros [? ?]; discriminate).
    apply bind_Ok_inv in E as ([] & w0 & Hpr & E). injection Hpr as <-.
    apply write_text_Ok_inv in E as [-> _]. cbn [files set_files].
    apply lookup_insert_eq.
  - intros c Hs Hd. rewrite Hs in E.
    rewrite bool_decide_eq_true_2 in E by eauto.
    apply bind_Ok_inv in E as ([] & w0 & Hcp & E). injection E as <-. cbn [files].
    unfold shutil_copy in Hcp.
    rewrite (lookup_node_last (files w1) _ _
               (last_joinpath pp ".pre-commit-config.yaml" eq_refl)) in Hcp.
    assert (match files w1 !! locate env (joinpath pp ".pre-commit-config.yaml") with
            | Some Dir =>
                joinpath (joinpath pp ".pre-commit-config.yaml")
                  (basename (joinpath (parent (Path_of (script_file env)))
                                      ".pre-commit-config.yaml"))
            | _ => joinpath pp ".pre-commit-config.yaml"
            end = joinpath pp ".pre-commit-config.yaml") as Hdst.
    { destruct (files w1 !! locate env (joinpath pp ".pre-commit-config.yaml"))
        as [[x|]|]; congruence. }
    rewrite Hdst in Hcp.
    destruct (bool_decide _ && bool_decide _) in Hcp; [discriminate|].
    apply bind_Ok_inv in Hcp as (c' & w0' & Hr & Hw).
    apply read_bytes_Ok_inv in Hr as [-> Hr]. rewrite Hs in Hr. injection Hr as <-.
    apply write_text_Ok_inv in Hw as [-> _]. cbn [files set_files].
    apply lookup_insert_eq.
Qed.

(** X14. Every successful [create_project] leaves a pre-commit
    configuration in the project directory: the default text when no
    configuration file sits next to the script once the bootstrap command
    has run, and a verbatim copy of that file when there is one (and the
    command has not put a directory at the destination). *)
Theorem create_project_pre_commit_config
    (pn t : string) (td an ae : option string) (w w' : world) :
  create_project env self pn t td an ae w = (w', Ok true) ->
  (lookup_node (bootstrap env pn td (files w)).1
     (locate env (joinpath (parent (Path_of (script_file env))) ".pre-commit-config.yaml"))
   = None ->
   files w' !! locate env (joinpath (target_path env pn td) ".pre-commit-config.yaml")
   = Some (File pre_commit_content))
  /\ (forall c,
        lookup_node (bootstrap env pn td (files w)).1
          (locate env (joinpath (parent (Path_of (script_file env)))
                                ".pre-commit-config.yaml"))
        = Some (File c) ->
        (bootstrap env pn td (files w)).1
          !! locate env (joinpath (target_path env pn td) ".pre-commit-config.yaml")
        <> Some Dir ->
        files w' !! locate env (joinpath (target_path env pn td) ".pre-commit-config.yaml")
        = Some (File c)).
Proof.
  intros E.
  apply create_project_success_inv in E as [Hk E].
  apply try_success_inv in E as (fs2 & c0 & manifest & w3 & Hrun & _ & _ & Hcaf & ->).
  unfold bootstrap, bootstrap_argv, project_key in *.
  cbn [files set_files] in Hrun. rewrite Hrun. cbn [fst].
  unfold create_additional_files in Hcaf.
  apply bind_Ok_inv in Hcaf as ([] & w1 & Hstep & Hcaf).
  apply bind_Ok_inv in Hcaf as ([] & w2 & Hcopy & Hpr). injection Hpr as <-. cbn [files].
  (* the starter step and the manifest leave both configuration paths alone *)
  assert (forall q, last q = Some ".pre-commit-config.yaml" -> files w1 !! q = fs2 !! q)
    as Hsame.
  { intros q Hq.
    match type of Hstep with
    | ?m ?W = _ =>
        assert (footprint (fun q => last q = Some "main.py" \/ last q = Some "cli.py") m)
          as Hf
    end.
    { destruct (String.eqb t "web"); [|destruct (String.eqb t "cli")].
      - apply footprint_write_text. left. now apply last_joinpath.
      - apply footprint_write_text. right. now apply last_joinpath.
      - now apply footprint_pure. }
    match type of Hstep with
    | _ ?W = _ => specialize (Hf W q)
    end.
    rewrite Hstep in Hf. cbn [fst files] in Hf.
    rewrite Hf by (rewrite Hq; intros [E|E]; discriminate E).
    apply lookup_insert_ne. intros E. rewrite <- E in Hq.
    rewrite last_joinpath in Hq by reflexivity. discriminate Hq. }
  destruct (copy_pre_commit_config_result _ _ _ Hcopy) as [Hdefault Hcopied].
  pose proof (last_joinpath (parent (Path_of (script_file env)))
                ".pre-commit-config.yaml" eq_refl) as Lsrc.
  split.
  - intros Hn. apply Hdefault.
    rewrite (lookup_node_last (files w1) _ _ Lsrc), (Hsame _ Lsrc).
    now rewrite <- (lookup_node_last fs2 _ _ Lsrc).
  - intros c Hs Hd. apply Hcopied.
    + rewrite (lookup_node_last (files w1) _ _ Lsrc), (Hsame _ Lsrc).
      now rewrite <- (lookup_node_last fs2 _ _ Lsrc).
    + now rewrite Hsame by (now apply last_joinpath).
Qed.
End pre_commit.

(** * Repeated calls *)

Section repeated_calls.
Variable env : environ.

Lemma lookup_node_insert_ne (fs : gmap (list string) node) (k q : list string) (n : node) :
  k <> q -> lookup_node (<[k := n]> fs) q = lookup_node fs q.
Proof. intros Hk. destruct q; [reflexivity|]. now apply lookup_insert_ne. Qed.

(** [write_text] looks at the files only. *)
Lemma write_text_same_files (p : Path) (c : string) (w v : world) :
  files v = files w ->
  files (write_text env p c v).1 = files (write_text env p c w).1
  /\ (write_text env p c v).2 = (write_text env p c w).2.
Proof.
  intros E. unfold write_text. rewrite E.
  destruct (lookup_node (files w) (locate env p)) as [[x|]|];
    try (now split);
    destruct (lookup_node (files w) (removelast (locate env p))) as [[y|]|];
    now split.
Qed.

(** Writing the same text to the same path a second time changes nothing
    and ends as the first time did. *)
Lemma write_text_again (p : Path) (c : string) (w : world) :
  files (write_text env p c (write_text env p c w).1).1 = files (write_text env p c w).1
  /\ (write_text env p c (write_text env p c w).1).2 = (write_text env p c w).2.
Proof.
  destruct (write_text env p c w) as [w1 [[]|e]] eqn:E; cbn [fst snd].
  - apply write_text_Ok_inv in E as E'. destruct E' as [-> Hnd].
    revert E. unfold write_text.
    destruct (lookup_node (files w) (locate env p)) as [[x|]|] eqn:Hk;
      try congruence;
      destruct (lookup_node (files w) (removelast (locate env p))) as [[y|]|] eqn:Hp;
      try discriminate; intros _; cbn [files set_files].
    + assert (locate env p <> []) as Hne.
      { intros E0. rewrite E0 in Hk. discriminate Hk. }
      rewrite (lookup_node_nonempty _ _ Hne), lookup_insert_eq.
      rewrite lookup_node_insert_ne, Hp.
      * cbn [fst snd files set_files]. now rewrite insert_insert_eq.
      * intros E0. destruct (locate env p) as [|a l] using rev_ind; [congruence|].
        rewrite removelast_last in E0. now apply snoc_ne in E0.
    + apply lookup_node_None in Hk as [Hne Hk].
      rewrite (lookup_node_nonempty _ _ Hne), lookup_insert_eq.
      rewrite lookup_node_insert_ne, Hp.
      * cbn [fst snd files set_files]. now rewrite insert_insert_eq.
      * intros E0. destruct (locate env p) as [|a l] using rev_ind; [congruence|].
        rewrite removelast_last in E0. now apply snoc_ne in E0.
  - assert (w1 = w) as ->.
    { revert E. unfold write_text.
      destruct (lookup_node (files w) (locate env p)) as [[x|]|];
        try (now intros [= <-]);
        destruct (lookup_node (files w) (removelast (locate env p))) as [[y|]|];
        try discriminate; now intros [= <-]. }
    now rewrite E.
Qed.

(** X15. Constructing the tool a second time on the world the first
    construction left changes nothing: same world, same object. *)
Theorem init_idempotent (dir : option string) (w w' : world) (obj : UVCreateTemplate) :
  init env dir w = (w', Ok obj) ->
  init env dir w' = (w', Ok obj).
Proof.
  intros E. apply init_inv in E as (-> & w0 & Hm & Hd & Hs).
  assert (lookup_node (files w') (locate env (store_path env dir)) = Some Dir
          /\ is_Some (lookup_node (files w')
                        (locate env (template_path (Self (store_path env dir)) "basic"))))
    as [Hd' Hb'].
  { apply bind_Ok_inv in Hs as (present & w1 & Hp & Hs).
    unfold path_exists in Hp. injection Hp as <- <-.
    destruct (lookup_node (files w0)
                (locate env (template_path (Self (store_path env dir)) "basic")))
      as [nd|] eqn:Hk.
    - rewrite bool_decide_eq_true_2 in Hs by eauto. injection Hs as <-.
      split; [exact Hd|]. rewrite Hk. eauto.
    - rewrite bool_decide_eq_false_2 in Hs by (intros [? ?]; discriminate).
      apply write_text_Ok_inv in Hs as [-> _]. cbn [files set_files]. split.
      + rewrite lookup_node_insert_ne; [exact Hd|].
        rewrite store_path_key. apply snoc_ne.
      + apply lookup_node_None in Hk as [Hne _].
        rewrite (lookup_node_nonempty _ _ Hne), lookup_insert_eq. eauto. }
  unfold init. fold (store_path env dir). unfold ensure_template_dir.
  cbn [template_dir]. unfold default_templates. cbn [for_each fst snd].
  rewrite (bind_Ok _ _ w' w' tt); [reflexivity|].
  rewrite (bind_Ok _ _ w' w' tt); [|unfold mkdir_exist_ok; now rewrite Hd'].
  rewrite (bind_Ok _ _ w' w' tt); [reflexivity|].
  unfold bind at 1, path_exists. now rewrite bool_decide_eq_true_2 by exact Hb'.
Qed.

Lemma write_text_Raise_inv (p : Path) (c : string) (w w1 : world) (e : exn) :
  write_text env p c w = (w1, Raise e) -> w1 = w.
Proof.
  unfold write_text.
  destruct (lookup_node (files w) (locate env p)) as [[x|]|];
    try (now intros [= <-]);
    destruct (lookup_node (files w) (removelast (locate env p))) as [[y|]|];
    try discriminate; now intros [= <-].
Qed.

(** [reset_named] looks at the files only. *)
Lemma reset_named_same_files (self : UVCreateTemplate) (name : string) (w v : world) :
  files v = files w ->
  files (reset_named env self name v).1 = files (reset_named env self name w).1
  /\ (reset_named env self name v).2 = (reset_named env self name w).2.
Proof.
  intros E. unfold reset_named.
  destruct (dict_get default_templates name) as [body|]; [|now split].
  unfold bind.
  destruct (write_text_same_files (template_path self name) body w v E) as [Hf Hr].
  destruct (write_text env (template_path self name) body v) as [v1 [[]|e]];
    destruct (write_text env (template_path self name) body w) as [w1 [[]|e']];
    cbn [fst snd files print] in *; try discriminate; now split.
Qed.

Lemma reset_named_Raise_inv (self : UVCreateTemplate) (name : string)
      (w w1 : world) (e : exn) :
  reset_named env self name w = (w1, Raise e) -> w1 = w.
Proof.
  unfold reset_named.
  destruct (dict_get default_templates name) as [body|]; [|discriminate].
  unfold bind.
  destruct (write_text env (template_path self name) body w) as [w2 [[]|e']] eqn:E;
    [discriminate|].
  intros [= <- _]. now apply write_text_Raise_inv in E.
Qed.

Lemma reset_named_again (self : UVCreateTemplate) (name : string) (w : world) :
  files (reset_named env self name (reset_named env self name w).1).1
  = files (reset_named env self name w).1
  /\ (reset_named env self name (reset_named env self name w).1).2
     = (reset_named env self name w).2.
Proof.
  destruct (reset_named env self name w) as [w1 [[]|e]] eqn:E; cbn [fst snd].
  2:{ apply reset_named_Raise_inv in E as E'. subst w1. now rewrite E. }
  revert E. unfold reset_named.
  destruct (dict_get default_templates name) as [body|]; [|now intros [= <-]].
  intros E. apply bind_Ok_inv in E as ([] & w0 & Hw & Hp). injection Hp as <-.
  destruct (write_text_again (template_path self name) body w) as [Hf Hr].
  rewrite Hw in Hf, Hr. cbn [fst snd] in Hf, Hr.
  destruct (write_text_same_files (template_path self name) body w0
              (World (files w0) (stdout w0 ++ [MsgReset name]) (spawned w0)) eq_refl)
    as [Hf' Hr'].
  rewrite Hf in Hf'. rewrite Hr in Hr'.
  destruct (write_text env (template_path self name) body (World _ _ _))
    as [w2 [[]|e]] eqn:E2; cbn [fst snd] in Hf', Hr'; [|discriminate].
  rewrite (bind_Ok _ _ _ _ _ E2). cbn [print fst snd files]. now split.
Qed.

(** X16. A reset is idempotent on the files: run a second time, for one name
    or for [all], it leaves the files the first run left and ends as the
    first run did. *)
Theorem reset_default_template_idempotent
    (self : UVCreateTemplate) (name : string) (w : world) :
  files (reset_default_template env self name
           (reset_default_template env self name w).1).1
  = files (reset_default_template env self name w).1
  /\ (reset_default_template env self name
        (reset_default_template env self name w).1).2
     = (reset_default_template env self name w).2.
Proof.
  unfold reset_default_template. destruct (String.eqb name "all").
  2:{ apply reset_named_again. }
  unfold default_templates. cbn [List.map fst for_each].
  assert (forall v v1,
            reset_named env self "basic" v = (v1, Ok tt) ->
            (exec (exec reset_named env self "basic"; ret tt); print MsgResetAll) v
            = (World (files v1) (stdout v1 ++ [MsgResetAll]) (spawned v1), Ok tt)) as Hok.
  { intros v v1 E. unfold bind. now rewrite E. }
  assert (forall v v1 e,
            reset_named env self "basic" v = (v1, Raise e) ->
            (exec (exec reset_named env self "basic"; ret tt); print MsgResetAll) v
            = (v1, Raise e)) as Hraise.
  { intros v v1 e E. unfold bind. now rewrite E. }
  destruct (reset_named_again self "basic" w) as [Hf Hr].
  destruct (reset_named env self "basic" w) as [w1 [[]|e]] eqn:E; cbn [fst snd] in Hf, Hr.
  - rewrite (Hok _ _ E). cbn [fst snd].
    destruct (reset_named_same_files self "basic" w1
                (World (files w1) (stdout w1 ++ [MsgResetAll]) (spawned w1)) eq_refl)
      as [Hf' Hr'].
    rewrite Hf in Hf'. rewrite Hr in Hr'.
    destruct (reset_named env self "basic" (World _ _ _)) as [w2 [[]|e]] eqn:E2;
      cbn [fst snd] in Hf', Hr'; [|discriminate].
    rewrite (Hok _ _ E2). cbn [fst snd files]. now split.
  - rewrite (Hraise _ _ _ E). cbn [fst snd].
    apply reset_named_Raise_inv in E as E'. subst w1.
    rewrite (Hraise _ _ _ E). now split.
Qed.
End repeated_calls.

(** * From the listing back to the files *)

Lemma substring_split (s : string) (k : nat) :
  k <= String.length s ->
  s = String.substring 0 k s +:+ String.substring k (String.length s - k) s.
Proof.
  revert k. induction s as [|c s IH]; intros k Hk.
  - cbn [String.length] in Hk. assert (k = 0) as -> by lia. reflexivity.
  - destruct k as [|k].
    + change (String.substring 0 0 (String c s)) with "".
      rewrite append_nil_l, Nat.sub_0_r.
      pose proof (substring_prefix (String c s) "") as E.
      rewrite append_nil_r in E. now rewrite E.
    + cbn [String.length] in Hk |- *. cbn [String.substring Nat.sub].
      rewrite append_cons. f_equal. apply IH. lia.
Qed.

Lemma ends_with_inv (suffix s : string) :
  ends_with suffix s = true -> exists a, s = a +:+ suffix.
Proof.
  unfold ends_with. intros E. apply andb_prop in E as [Hn He].
  apply Nat.leb_le in Hn. apply String.eqb_eq in He.
  exists (String.substring 0 (String.length s - String.length suffix) s).
  assert (String.length s - String.length suffix <= String.length s) as Hk by lia.
  pose proof (substring_split s _ Hk) as E.
  replace (String.length s - (String.length s - String.length suffix))
    with (String.length suffix) in E by lia.
  rewrite He in E. exact E.
Qed.

Section listing.
Context `{Runtime}.
Variable env : environ.
Variable self : UVCreateTemplate.

(** X17. A listed name leads back to a file: every name [list_templates]
    reports, other than [.toml] and without a path separator, has its
    template file in the store, so that looking the template up by that name
    finds it. (A file called [.toml] is listed under the name [.toml], whose
    template file would be [.toml.toml].) *)
Theorem listed_template_exists (w w' : world) (names : list string) (n : string) :
  list_templates env self w = (w', Ok names) ->
  n ∈ names ->
  slash_free n = true ->
  n <> ".toml" ->
  is_Some (lookup_node (files w) (locate env (template_path self n))).
Proof.
  intros E Hin Hs Hn.
  destruct (list_templates_spec env self w) as (names' & Hl & Hspec).
  rewrite Hl in E. injection E as _ <-.
  apply Hspec in Hin as (f & Hf & He & Hstem).
  apply ends_with_inv in He as [a ->].
  destruct (decide (a = "")) as [->|Ha].
  - rewrite append_nil_l in Hstem. cbn in Hstem. congruence.
  - rewrite (stem_toml a Ha) in Hstem. subst a.
    rewrite (template_path_key env self n (Path_of_toml n Hs)).
    rewrite lookup_node_nonempty; [exact Hf|].
    now destruct (locate env (template_dir self)).
Qed.
End listing.

(** * The directory of the starter module *)

Section starter_directory.
Context `{Runtime}.
Variable env : environ.
Variable self : UVCreateTemplate.


End starter_directory.

(** * Instances of the further properties

    Each property with a precondition, applied in the demonstration
    world. *)

Lemma custom_template_round_trip_witness :
  (create_custom_template ada demo_self "notes" "a = 1" demo_world).2 = Ok tt
  /\ cr_free "a = 1" = true
  /\ stdout (show_template ada demo_self "notes"
               (create_custom_template ada demo_self "notes" "a = 1" demo_world).1).1
     = [MsgCustomTemplate "notes";
        MsgShowHeader "notes"; MsgShowRule; MsgShowContent "a = 1"].
Proof.
  assert ((create_custom_template ada demo_self "notes" "a = 1" demo_world).2 = Ok tt)
    as H1 by (vm_compute; reflexivity).
  assert (cr_free "a = 1" = true) as H2 by (vm_compute; reflexivity).
  assert (stdout (create_custom_template ada demo_self "notes" "a = 1" demo_world).1
          = [MsgCustomTemplate "notes"]) as H3
    by (vm_compute; reflexivity).
  split; [exact H1|]. split; [exact H2|].
  rewrite (proj2 (custom_template_round_trip ada demo_self "notes" "a = 1" demo_world _
                    (pair_eta _ _ H1)) H2).
  cbn [fst stdout]. rewrite H3. reflexivity.
Defined.

Lemma custom_template_listed_witness :
  slash_free "notes" = true
  /\ "notes" <> ""
  /\ (create_custom_template ada demo_self "notes" "a = 1" demo_world).2 = Ok tt
  /\ exists names,
       list_templates ada demo_self
         (create_custom_template ada demo_self "notes" "a = 1" demo_world).1
       = ((create_custom_template ada demo_self "notes" "a = 1" demo_world).1, Ok names)
       /\ "notes" ∈ names.
Proof.
  assert (slash_free "notes" = true) as H1 by (vm_compute; reflexivity).
  assert ("notes" <> "") as H2 by discriminate.
  assert ((create_custom_template ada demo_self "notes" "a = 1" demo_world).2 = Ok tt)
    as H3 by (vm_compute; reflexivity).
  split; [exact H1|]. split; [exact H2|]. split; [exact H3|].
  exact (@custom_template_listed uv_ok ada demo_self "notes" "a = 1" demo_world _
           H1 H2 (pair_eta _ _ H3)).
Defined.

Lemma custom_template_isolated_witness :
  slash_free "notes" = true
  /\ slash_free "basic" = true
  /\ "notes" <> "basic"
  /\ files (create_custom_template ada demo_self "notes" "a = 1" demo_world).1
       !! locate ada (template_path demo_self "basic")
     = files demo_world !! locate ada (template_path demo_self "basic").
Proof.
  assert (slash_free "notes" = true) as H1 by (vm_compute; reflexivity).
  assert (slash_free "basic" = true) as H2 by (vm_compute; reflexivity).
  assert ("notes" <> "basic") as H3 by discriminate.
  split; [exact H1|]. split; [exact H2|]. split; [exact H3|].
  exact (custom_template_isolated ada demo_self "notes" "basic" "a = 1" demo_world
           H1 H2 H3).
Defined.

Lemma reset_touches_only_defaults_witness :
  ["home"; "ada"; ".uv_templates"; "web.toml"] <> locate ada (template_path demo_self "basic")
  /\ files (reset_default_template ada demo_self "all" demo_world).1
       !! ["home"; "ada"; ".uv_templates"; "web.toml"]
     = files demo_world !! ["home"; "ada"; ".uv_templates"; "web.toml"].
Proof.
  assert (["home"; "ada"; ".uv_templates"; "web.toml"]
          <> locate ada (template_path demo_self "basic")) as H1
    by (vm_compute; discriminate).
  split; [exact H1|].
  exact (reset_touches_only_defaults ada demo_self "all" demo_world _ H1).
Defined.

Lemma ensure_template_dir_keeps_entries_witness :
  is_Some (files demo_world !! ["home"; "ada"; ".uv_templates"; "web.toml"])
  /\ files (ensure_template_dir ada demo_self demo_world).1
       !! ["home"; "ada"; ".uv_templates"; "web.toml"]
     = files demo_world !! ["home"; "ada"; ".uv_templates"; "web.toml"].
Proof.
  assert (is_Some (files demo_world !! ["home"; "ada"; ".uv_templates"; "web.toml"])) as H1
    by (exists (File "name = {project_name}"); vm_compute; reflexivity).
  split; [exact H1|].
  exact (ensure_template_dir_keeps_entries ada demo_self demo_world _ H1).
Defined.

Lemma init_seeds_default_witness :
  (init ada None fresh_world).2 = Ok (Self (store_path ada None))
  /\ lookup_node (files fresh_world)
       (locate ada (template_path (Self (store_path ada None)) "basic")) = None
  /\ read_text ada (template_path (Self (store_path ada None)) "basic")
       (init ada None fresh_world).1
     = ((init ada None fresh_world).1, Ok get_basic_template).
Proof.
  assert ((init ada None fresh_world).2 = Ok (Self (store_path ada None))) as H1
    by (vm_compute; reflexivity).
  assert (lookup_node (files fresh_world)
            (locate ada (template_path (Self (store_path ada None)) "basic")) = None) as H2
    by (vm_compute; reflexivity).
  split; [exact H1|]. split; [exact H2|].
  exact (init_seeds_default ada None fresh_world _ _ (pair_eta _ _ H1) H2).
Defined.

Lemma init_lists_basic_witness :
  (init ada (Some "/home/ada/store") fresh_world).2
  = Ok (Self (store_path ada (Some "/home/ada/store")))
  /\ exists names,
       list_templates ada (Self (store_path ada (Some "/home/ada/store")))
         (init ada (Some "/home/ada/store") fresh_world).1
       = ((init ada (Some "/home/ada/store") fresh_world).1, Ok names)
       /\ "basic" ∈ names.
Proof.
  assert ((init ada (Some "/home/ada/store") fresh_world).2
          = Ok (Self (store_path ada (Some "/home/ada/store")))) as H1
    by (vm_compute; reflexivity).
  split; [exact H1|].
  exact (@init_lists_basic uv_ok ada (Some "/home/ada/store") fresh_world _ _
           (pair_eta _ _ H1)).
Defined.

Lemma create_project_blocked_target_witness :
  lookup_node (files demo_world)
    (project_key ada "proj" (Some "/home/ada/work/old/notes.txt/proj")) = None
  /\ blocked (files demo_world)
       (project_key ada "proj" (Some "/home/ada/work/old/notes.txt/proj")) = true
  /\ @create_project uv_ok ada demo_self "proj" "basic"
       (Some "/home/ada/work/old/notes.txt/proj") None None demo_world
     = (demo_world, Raise NotADirectoryError).
Proof.
  assert (lookup_node (files demo_world)
            (project_key ada "proj" (Some "/home/ada/work/old/notes.txt/proj")) = None) as H1
    by (vm_compute; reflexivity).
  assert (blocked (files demo_world)
            (project_key ada "proj" (Some "/home/ada/work/old/notes.txt/proj")) = true) as H2
    by (vm_compute; reflexivity).
  split; [exact H1|]. split; [exact H2|].
  exact (@create_project_blocked_target uv_ok ada demo_self "proj" "basic"
           (Some "/home/ada/work/old/notes.txt/proj") None None demo_world H1 H2).
Defined.

Lemma create_project_manifest_rendered_witness :
  (@create_project uv_ok ada demo_self "demo" "braces" None None None demo_world).2 = Ok true
  /\ (@bootstrap uv_ok ada "demo" None (files demo_world)).2 = Exited 0.
Proof.
  assert ((@create_project uv_ok ada demo_self
             "demo" "braces" None None None demo_world).2 = Ok true) as H1
    by (vm_compute; reflexivity).
  split; [exact H1|].
  exact (proj1 (@create_project_manifest_rendered uv_ok ada demo_self
                  "demo" "braces" None None None demo_world _ (pair_eta _ _ H1))).
Defined.

Lemma create_project_confined_witness :
  (starter_file "pinned" = None \/ Path_of "site" = MkPath "" ["site"])
  /\ lookup_node (files demo_world) (project_key ada "site" None) = None
  /\ blocked (files demo_world) (project_key ada "site" None) = false
  /\ (@bootstrap uv_ok ada "site" None (files demo_world)).1
       !! project_key ada "site" None = Some Dir
  /\ forall q,
       ~ project_key ada "site" None `prefix_of` q ->
       files (@create_project uv_ok ada demo_self
                "site" "pinned" None None None demo_world).1 !! q
       = (@bootstrap uv_ok ada "site" None (files demo_world)).1 !! q.
Proof.
  assert (starter_file "pinned" = None \/ Path_of "site" = MkPath "" ["site"]) as H0
    by (left; reflexivity).
  assert (lookup_node (files demo_world) (project_key ada "site" None) = None) as H1
    by (vm_compute; reflexivity).
  assert (blocked (files demo_world) (project_key ada "site" None) = false) as H2
    by (vm_compute; reflexivity).
  assert ((@bootstrap uv_ok ada "site" None (files demo_world)).2 = Exited 0) as H3
    by (vm_compute; reflexivity).
  assert ((@bootstrap uv_ok ada "site" None (files demo_world)).1
            !! project_key ada "site" None = Some Dir) as H4
    by (vm_compute; reflexivity).
  split; [exact H0|]. split; [exact H1|]. split; [exact H2|]. split; [exact H4|].
  exact (proj1 (@create_project_confined uv_ok ada demo_self
                  "site" "pinned" None None None demo_world _ _
                  H0 H1 H2 (pair_eta _ _ H3) H4)).
Defined.

Lemma create_project_pre_commit_config_witness :
  (@create_project uv_ok ada demo_self "demo" "basic" None None None demo_world).2 = Ok true
  /\ files (@create_project uv_ok ada demo_self
              "demo" "basic" None None None demo_world).1
       !! locate ada (joinpath (target_path ada "demo" None) ".pre-commit-config.yaml")
     = Some (File pre_commit_content).
Proof.
  assert ((@create_project uv_ok ada demo_self
             "demo" "basic" None None None demo_world).2 = Ok true) as H1
    by (vm_compute; reflexivity).
  assert (lookup_node (@bootstrap uv_ok ada "demo" None (files demo_world)).1
            (locate ada (joinpath (parent (Path_of (script_file ada)))
                                  ".pre-commit-config.yaml")) = None) as H2
    by (vm_compute; reflexivity).
  split; [exact H1|].
  exact (proj1 (@create_project_pre_commit_config uv_ok ada demo_self
                  "demo" "basic" None None None demo_world _ (pair_eta _ _ H1)) H2).
Defined.

Lemma init_idempotent_witness :
  (init ada None fresh_world).2 = Ok (Self (store_path ada None))
  /\ init ada None (init ada None fresh_world).1
     = ((init ada None fresh_world).1, Ok (Self (store_path ada None))).
Proof.
  assert ((init ada None fresh_world).2 = Ok (Self (store_path ada None))) as H1
    by (vm_compute; reflexivity).
  split; [exact H1|].
  exact (init_idempotent ada None fresh_world _ _ (pair_eta _ _ H1)).
Defined.

Lemma listed_template_exists_witness :
  (list_templates ada demo_self demo_world).2
  = Ok ["braces"; "cli"; "pinned"; "basic"; "web"]
  /\ "pinned" ∈ ["braces"; "cli"; "pinned"; "basic"; "web"]
  /\ slash_free "pinned" = true
  /\ "pinned" <> ".toml"
  /\ is_Some (lookup_node (files demo_world) (locate ada (template_path demo_self "pinned"))).
Proof.
  assert ((list_templates ada demo_self demo_world).2
          = Ok ["braces"; "cli"; "pinned"; "basic"; "web"]) as H1
    by (vm_compute; reflexivity).
  assert ("pinned" ∈ ["braces"; "cli"; "pinned"; "basic"; "web"]) as H2
    by (apply (bool_decide_unpack _); vm_compute; exact I).
  assert (slash_free "pinned" = true) as H3 by (vm_compute; reflexivity).
  assert ("pinned" <> ".toml") as H4 by discriminate.
  split; [exact H1|]. split; [exact H2|]. split; [exact H3|]. split; [exact H4|].
  exact (@listed_template_exists uv_ok ada demo_self demo_world _ _ "pinned"
           (pair_eta _ _ H1) H2 H3 H4).
Defined.

